(** * StockAnalysis: the breakout analyser of [app.py]

    A shallow embedding of [analyze_breakouts], [main] and [validate_input]
    together with the pandas, yfinance and Streamlit operations they call.

    Numbers.  The script computes on binary64 values.  The development
    follows it twice.  In the first part a float is an exact fraction or
    one of the three special values [PInf], [NInf], [NaN]; the special
    values arise and propagate the way IEEE 754 and pandas prescribe
    (division by zero, comparisons with NaN), the rounding of the single
    operations is left out, and every finite result is kept in lowest
    terms, so that equal numbers are equal terms.  This part carries what
    a run does with dates, labels, positions, requests and messages.  The
    module [Binary64] follows the script on binary64 floats, with every
    rounding, and carries what depends on the digits of a number: the
    strict comparisons of the filter, the formatted percentages and the
    mean that is read back from them.

    Dates.  A date is its proleptic Gregorian ordinal
    ([datetime.toordinal()]); [timedelta(days=n)] is the integer [n], and
    [strptime]/[strftime] with ['%Y-%m-%d'] are the two directions of the
    bijection between ordinals and their text, left implicit. *)

From Stdlib Require Import NArith ZArith QArith Qabs Qround Qreduction List String Ascii Bool Lia.
From Stdlib Require Import DecimalString DecimalPos DecimalN Sorted Lqa.
From Stdlib Require Floats.
Import ListNotations.
Local Open Scope Z_scope.

(** ** Floats *)

Inductive float : Type :=
| Fin (q : Q)
| PInf
| NInf
| NaN.

Definition fin (q : Q) : float := Fin (Qred q).

Definition Qlt_bool (a b : Q) : bool := negb (Qle_bool b a).

Definition is_nan (x : float) : bool :=
  match x with NaN => true | _ => false end.

(** Numerical equality of floats ([==] of Python on non-NaN values). *)
Definition feq (x y : float) : Prop :=
  match x, y with
  | Fin a, Fin b => (a == b)%Q
  | PInf, PInf => True
  | NInf, NInf => True
  | _, _ => False
  end.

Definition fadd (x y : float) : float :=
  match x, y with
  | NaN, _ | _, NaN => NaN
  | Fin a, Fin b => fin (a + b)
  | PInf, NInf | NInf, PInf => NaN
  | PInf, _ | _, PInf => PInf
  | NInf, _ | _, NInf => NInf
  end.

Definition fsub (x y : float) : float :=
  match x, y with
  | NaN, _ | _, NaN => NaN
  | Fin a, Fin b => fin (a - b)
  | PInf, PInf | NInf, NInf => NaN
  | PInf, _ | _, NInf => PInf
  | NInf, _ | _, PInf => NInf
  end.

Definition fmul (x y : float) : float :=
  match x, y with
  | NaN, _ | _, NaN => NaN
  | Fin a, Fin b => fin (a * b)
  | Fin a, PInf | PInf, Fin a =>
      if Qlt_bool 0 a then PInf else if Qlt_bool a 0 then NInf else NaN
  | Fin a, NInf | NInf, Fin a =>
      if Qlt_bool 0 a then NInf else if Qlt_bool a 0 then PInf else NaN
  | PInf, PInf | NInf, NInf => PInf
  | PInf, NInf | NInf, PInf => NaN
  end.

(** Division as numpy performs it on float64: no exception, a zero divisor
    gives an infinity of the sign of the dividend, and 0/0 is NaN. *)
Definition fdiv (x y : float) : float :=
  match x, y with
  | NaN, _ | _, NaN => NaN
  | Fin a, Fin b =>
      if Qeq_bool b 0
      then if Qlt_bool 0 a then PInf else if Qlt_bool a 0 then NInf else NaN
      else fin (a / b)
  | Fin _, _ => Fin 0
  | PInf, Fin b => if Qlt_bool b 0 then NInf else PInf
  | NInf, Fin b => if Qlt_bool b 0 then PInf else NInf
  | _, _ => NaN
  end.

(** [x > y]; false as soon as one side is NaN. *)
Definition fgt (x y : float) : bool :=
  match x, y with
  | NaN, _ | _, NaN => false
  | Fin a, Fin b => Qlt_bool b a
  | PInf, PInf => false
  | PInf, _ => true
  | Fin _, NInf => true
  | _, _ => false
  end.

(** Round to the nearest integer, ties to the even one. *)
Definition round_half_even (q : Q) : Z :=
  let f := Qfloor q in
  match (q - inject_Z f ?= 1 # 2)%Q with
  | Lt => f
  | Gt => f + 1
  | Eq => if Z.even f then f else f + 1
  end.

(** [round(x, 2)]. *)
Definition round2 (x : float) : float :=
  match x with
  | Fin q => fin (round_half_even (q * 100) # 100)
  | _ => x
  end.

(** ** Text *)

Local Open Scope string_scope.

Definition digits (n : N) : string := NilEmpty.string_of_uint (N.to_uint n).

(** The fixed-point rendering with one digit after the point of the number
    whose tenfold rounds to [n]; [neg] says that the number was negative
    (Python keeps the sign of a negative number that rounds to zero). *)
Definition fixed1 (neg : bool) (n : Z) : string :=
  (if neg then "-" else "")
    ++ digits (Z.abs_N n / 10) ++ "." ++ digits (Z.abs_N n mod 10).

(** [f"{x:.1f}"] *)
Definition format_1f (x : float) : string :=
  match x with
  | Fin q => fixed1 (Qlt_bool q 0) (round_half_even (q * 10))
  | PInf => "inf"
  | NInf => "-inf"
  | NaN => "nan"
  end.

(** [f"{x:.1%}"]: the value times 100 in fixed-point notation with one
    digit, followed by a percent sign. *)
Definition format_pct1 (x : float) : string :=
  match x with
  | Fin q => fixed1 (Qlt_bool q 0) (round_half_even (q * 1000)) ++ "%"
  | PInf => "inf%"
  | NInf => "-inf%"
  | NaN => "nan%"
  end.

(** [s.rstrip('%')] *)
Fixpoint rstrip_pct (s : string) : string :=
  match s with
  | EmptyString => EmptyString
  | String c s' =>
      match rstrip_pct s' with
      | EmptyString => if Ascii.eqb c "%" then EmptyString else String c EmptyString
      | r => String c r
      end
  end.

(** Split at the first point. *)
Fixpoint split_point (s : string) : option (string * string) :=
  match s with
  | EmptyString => None
  | String c s' =>
      if Ascii.eqb c "." then Some (EmptyString, s')
      else match split_point s' with
           | Some (a, b) => Some (String c a, b)
           | None => None
           end
  end.

Definition parse_unsigned (s : string) : option Q :=
  match split_point s with
  | Some (ip, fp) =>
      match NilEmpty.uint_of_string ip, NilEmpty.uint_of_string fp with
      | Some i, Some f =>
          match ip, fp with
          | EmptyString, _ | _, EmptyString => None
          | _, _ =>
              Some (inject_Z (Z.of_N (N.of_uint i))
                    + (Z.of_N (N.of_uint f) # Pos.of_nat (10 ^ String.length fp)))%Q
          end
      | _, _ => None
      end
  | None => None
  end.

(** [float(s)] on the texts that the two formats above produce: [nan],
    [inf], [-inf] and an optional minus sign followed by digits, a point and
    digits.  [None] stands for the [ValueError] of Python; Python accepts
    more (exponents, blanks, a missing fraction), none of which the script
    can produce. *)
Definition parse_float (s : string) : option float :=
  if String.eqb s "nan" then Some NaN
  else if String.eqb s "inf" then Some PInf
  else if String.eqb s "-inf" then Some NInf
  else match s with
       | String "-" s' =>
           match parse_unsigned s' with
           | Some q => Some (fin (- q))
           | None => None
           end
       | _ =>
           match parse_unsigned s with
           | Some q => Some (fin q)
           | None => None
           end
       end.

Local Close Scope string_scope.

(** ** Exceptions *)

Inductive exn : Type :=
| KeyError
| TypeError
| IndexError
| ValueError
| AttributeError
| RerunException.

Inductive result (A : Type) : Type :=
| Ok (a : A)
| Raise (e : exn).
Arguments Ok {A} a.
Arguments Raise {A} e.

Definition rbind {A B} (r : result A) (k : A -> result B) : result B :=
  match r with
  | Ok a => k a
  | Raise e => Raise e
  end.

Declare Scope result_scope.
Delimit Scope result_scope with result.
Notation "'let?' x := r 'in' k" := (rbind r (fun x => k))
  (at level 10, x name, r at level 100, k at level 200) : result_scope.

(** A [for] loop that appends one value per element. *)
Fixpoint for_each {A B} (body : A -> result B) (l : list A) : result (list B) :=
  match l with
  | [] => Ok []
  | a :: l' =>
      (let? b := body a in
       let? bs := for_each body l' in
       Ok (b :: bs))%result
  end.

(** ** pandas *)

(** One row of the frame that [yf.download] returns, after [droplevel]:
    the index label and the two columns the script reads. *)
Record Bar : Type := { Date : Z; Close : Q; Volume : Z }.

Fixpoint pct_change_from (prev : Q) (xs : list Q) : list float :=
  match xs with
  | [] => []
  | x :: xs' => fsub (fdiv (Fin x) (Fin prev)) (Fin 1) :: pct_change_from x xs'
  end.

(** [Series.pct_change()]: NaN in the first row, then [x / previous - 1]. *)
Definition pct_change (xs : list Q) : list float :=
  match xs with
  | [] => []
  | x :: xs' => NaN :: pct_change_from x xs'
  end.

Definition sumZ (xs : list Z) : Z := fold_right Z.add 0 xs.

(** [Series.rolling(window).mean()]: NaN until [window] rows are there,
    then the mean of the last [window] rows, the current one included. *)
Definition rolling_mean (window : nat) (xs : list Z) : list float :=
  map (fun i =>
         if (S i <? window)%nat then NaN
         else fin (inject_Z (sumZ (firstn window (skipn (S i - window) xs)))
                   / inject_Z (Z.of_nat window)))
      (seq 0 (List.length xs)).

(** [a.div(b)] on two columns of one frame. *)
Definition series_div (a : list Z) (b : list float) : list float :=
  map (fun '(v, m) => fdiv (Fin (inject_Z v)) m) (combine a b).

Definition mask_and (a b : list bool) : list bool :=
  map (fun '(x, y) => x && y) (combine a b).

(** [index[mask]] *)
Definition select (index : list Z) (mask : list bool) : list Z :=
  map fst (filter snd (combine index mask)).

Fixpoint positions_from (n : nat) (d : Z) (index : list Z) : list nat :=
  match index with
  | [] => []
  | x :: index' =>
      if x =? d then n :: positions_from (S n) d index'
      else positions_from (S n) d index'
  end.

(** [index.get_loc(d)] where an integer is required of it: a missing label
    is a [KeyError]; for a label that occurs more than once pandas returns a
    slice or a mask, and the arithmetic of line 40 on it is a [TypeError]. *)
Definition get_loc (index : list Z) (d : Z) : result nat :=
  match positions_from 0 d index with
  | [] => Raise KeyError
  | [i] => Ok i
  | _ => Raise TypeError
  end.

(** [frame.loc[d, column]] where a number is required of it: for a label
    that occurs more than once pandas returns a Series, on which the
    formatting of lines 52 and 53 (reached only after line 40) is a
    [TypeError]. *)
Definition loc {A} (index : list Z) (column : list A) (d : Z) : result A :=
  (let? i := get_loc index d in
   match nth_error column i with
   | Some a => Ok a
   | None => Raise KeyError
   end)%result.

(** [l[i]] of Python: a negative position counts from the end. *)
Definition getitem {A} (l : list A) (i : Z) : result A :=
  let n := Z.of_nat (List.length l) in
  if (i <? - n) || (n <=? i) then Raise IndexError
  else match nth_error l (Z.to_nat (if i <? 0 then i + n else i)) with
       | Some a => Ok a
       | None => Raise IndexError
       end.

(** [Series.mean()]: NaN entries are skipped; no entry left gives NaN. *)
Definition mean (xs : list float) : float :=
  let ys := filter (fun x => negb (is_nan x)) xs in
  match ys with
  | [] => NaN
  | _ => fdiv (fold_left fadd ys (Fin 0)) (Fin (inject_Z (Z.of_nat (List.length ys))))
  end.

(** ** The columns that [analyze_breakouts] adds, and its filter *)

Definition Daily_Return (stock : list Bar) : list float :=
  pct_change (map Close stock).

Definition MA20_Volume (stock : list Bar) : list float :=
  rolling_mean 20 (map Volume stock).

Definition Volume_Ratio (stock : list Bar) : list float :=
  series_div (map Volume stock) (MA20_Volume stock).

(** The mask of line 35. *)
Definition breakout_mask (stock : list Bar) (start_date : Z)
    (volume_threshold price_threshold : Q) : list bool :=
  mask_and
    (mask_and (map (fun d => start_date <=? d) (map Date stock))
              (map (fun r => fgt r (Fin volume_threshold)) (Volume_Ratio stock)))
    (map (fun r => fgt r (Fin price_threshold)) (Daily_Return stock)).

(** [breakouts.index] *)
Definition breakouts (stock : list Bar) (start_date : Z)
    (volume_threshold price_threshold : Q) : list Z :=
  select (map Date stock)
         (breakout_mask stock start_date volume_threshold price_threshold).

(** ** One row of the results *)

Module Signal.

Record t : Type := {
  Entry_Date : Z;
  Entry_Price : float;
  Exit_Date : Z;
  Exit_Price : float;
  Volume : Z;
  Volume_Ratio : float;
  Daily_Return : string;
  Forward_Return : string }.

End Signal.

(** The body of the loop of lines 38 to 54. *)
Definition signal_of (stock : list Bar) (holding_period : Z) (date : Z)
  : result Signal.t :=
  let index := map Date stock in
  (let? entry_price := loc index (map Close stock) date in
   let? i := get_loc index date in
   let future_idx :=
     Z.min (Z.of_nat i + holding_period) (Z.of_nat (List.length index) - 1) in
   let? future_date := getitem index future_idx in
   let? exit_price := loc index (map Close stock) future_date in
   let forward_return :=
     fdiv (fsub (Fin exit_price) (Fin entry_price)) (Fin entry_price) in
   let? volume := loc index (map Volume stock) date in
   let? volume_ratio := loc index (Volume_Ratio stock) date in
   let? daily_return := loc index (Daily_Return stock) date in
   Ok {| Signal.Entry_Date := date;
         Signal.Entry_Price := round2 (Fin entry_price);
         Signal.Exit_Date := future_date;
         Signal.Exit_Price := round2 (Fin exit_price);
         Signal.Volume := volume;
         Signal.Volume_Ratio := round2 volume_ratio;
         Signal.Daily_Return := format_pct1 daily_return;
         Signal.Forward_Return := format_pct1 forward_return |})%result.

(** ** Streamlit and yfinance: what a run does to the outside *)

(** The pieces of an f-string.  The two format specifications that the
    script uses are rendered by [format_1f] and [format_pct1]; a value
    interpolated without one keeps its value here. *)
Inductive piece : Type :=
| Lit (s : string)
| Of_date (d : Z)
| Of_float (x : float)
| Of_int (n : Z).

Inductive element : Type :=
| title (body : string)
| text_input (label : string) (value : string)
| date_input (label : string)
| number_input (label : string) (min_value : Q) (max_value : option Q) (value : Q)
| button (label : string)
| error (body : list piece)
| subheader (body : string)
| write (body : list piece)
| dataframe (data : list Signal.t)
| download_button (label : string) (data : list Signal.t) (file_name mime : string)
| experimental_rerun.

(** The page rendered so far and the requests sent to the data provider. *)
Record World : Type := {
  page : list element;
  fetches : list (string * Z * Z) }.

Definition M (A : Type) : Type := World -> World * result A.

Definition ret {A} (a : A) : M A := fun w => (w, Ok a).

Definition bind {A B} (m : M A) (k : A -> M B) : M B :=
  fun w =>
    match m w with
    | (w', Ok a) => k a w'
    | (w', Raise e) => (w', Raise e)
    end.

Definition lift {A} (r : result A) : M A := fun w => (w, r).

Declare Scope run_scope.
Delimit Scope run_scope with run.
Notation "x <- m ;; k" := (bind m (fun x => k))
  (at level 61, m at next level, right associativity) : run_scope.
Notation "m ;; k" := (bind m (fun _ => k))
  (at level 61, right associativity) : run_scope.

Definition st (e : element) : M unit :=
  fun w => ({| page := page w ++ [e]; fetches := fetches w |}, Ok tt).

(** What a run finds outside: the market data provider behind
    [yf.download], and whether the visitor presses the download button. *)
Record Env : Type := {
  provider : string -> Z -> Z -> list Bar;
  download_pressed : bool }.

(** [yf.download(ticker, start=..., end=...)] followed by [droplevel].
    The call raises nothing of its own: for a ticker or a range without data
    yfinance returns a frame with the usual columns and no row. *)
Definition yf_download (env : Env) (ticker : string) (start end_ : Z)
  : M (list Bar) :=
  fun w =>
    ({| page := page w; fetches := fetches w ++ [(ticker, start, end_)] |},
     Ok (provider env ticker start end_)).

(** Line 61.  A frame built from an empty list has no column at all, and
    asking it for one is a [KeyError]. *)
Definition avg_return_of (results : list Signal.t) : result float :=
  match results with
  | [] => Raise KeyError
  | _ =>
      (let? xs :=
         for_each (fun r =>
                     match parse_float (rstrip_pct (Signal.Forward_Return r)) with
                     | Some x => Ok x
                     | None => Raise ValueError
                     end) results in
       Ok (mean xs))%result
  end.

Local Open Scope string_scope.
Local Open Scope run_scope.

Definition analyze_breakouts (env : Env) (ticker : string)
    (start_date end_date : Z) (volume_threshold price_threshold : Q)
    (holding_period : Z) : M unit :=
  let buffer_start := (start_date - 40)%Z in
  stock <- yf_download env ticker buffer_start end_date ;;
  let breakouts := breakouts stock start_date volume_threshold price_threshold in
  results <- lift (for_each (signal_of stock holding_period) breakouts) ;;
  match results with
  | [] =>
      st (error [Lit "No breakout signals found for "; Lit ticker;
                 Lit " with the given parameters."])
  | _ =>
      let df := results in
      avg_return <- lift (avg_return_of df) ;;
      st (subheader "Results") ;;
      st (write [Lit "Total Signals: "; Of_int (Z.of_nat (List.length df))]) ;;
      st (write [Lit "Average Forward Return: "; Lit (format_1f avg_return);
                 Lit "%"]) ;;
      st (write [Lit "Analysis Period: "; Of_date start_date; Lit " to ";
                 Of_date end_date]) ;;
      st (write [Lit "Volume Threshold: ";
                 Of_float (fmul (Fin volume_threshold) (Fin 100)); Lit "%"]) ;;
      st (write [Lit "Price Threshold: ";
                 Of_float (fmul (Fin price_threshold) (Fin 100)); Lit "%"]) ;;
      st (write [Lit "Holding Period: "; Of_int holding_period; Lit " days"]) ;;
      st (dataframe df) ;;
      st (download_button "Download Report as CSV" df
                          "breakout_analysis.csv" "text/csv") ;;
      if download_pressed env then st experimental_rerun else ret tt
  end.

(** What the visitor has entered in the widgets of [main] when the script
    runs, as the widgets return it. *)
Record Session : Type := {
  ticker_entered : string;
  start_entered : Z;
  end_entered : Z;
  volume_threshold_entered : Q;
  price_threshold_entered : Q;
  holding_period_entered : Z;
  run_pressed : bool }.

Definition main (env : Env) (s : Session) : M unit :=
  st (title "Stock Breakout Strategy Analyzer") ;;
  st (text_input "Enter ticker symbol (e.g., AAPL)" "AAPL") ;;
  let ticker := ticker_entered s in
  st (date_input "Start date") ;;
  let start_date := start_entered s in
  st (date_input "End date") ;;
  let end_date := end_entered s in
  st (number_input "Volume threshold (e.g., 2 for 200%)" (1 # 10) None 2) ;;
  let volume_threshold := volume_threshold_entered s in
  st (number_input "Price threshold (e.g., 0.02 for 2%)" (1 # 100) (Some 1%Q)
                   (2 # 100)) ;;
  let price_threshold := price_threshold_entered s in
  st (number_input "Holding period in days" 1 None 10) ;;
  let holding_period := holding_period_entered s in
  st (button "Run Analysis") ;;
  if run_pressed s then
    if (end_date <=? start_date)%Z then
      st (error [Lit "Start date must be before end date."])
    else
      analyze_breakouts env ticker start_date end_date volume_threshold
                        price_threshold holding_period
  else ret tt.

Local Close Scope run_scope.
Local Close Scope string_scope.


Definition fresh : World := {| page := []; fetches := [] |}.

(** The rows of the tables on a page. *)
Definition tables (p : list element) : list Signal.t :=
  flat_map (fun e => match e with dataframe d => d | _ => [] end) p.


(** ** The rows by position

    The script finds the rows of an event by their label.  The statements
    below speak of positions in the fetched series instead; these are the
    quantities they use. *)

Definition date_at (stock : list Bar) (i : nat) : Z := nth i (map Date stock) 0.

Definition close_at (stock : list Bar) (i : nat) : Q := nth i (map Close stock) 0%Q.

Definition volume_at (stock : list Bar) (i : nat) : Z := nth i (map Volume stock) 0.

Definition volume_ratio_at (stock : list Bar) (i : nat) : float :=
  nth i (Volume_Ratio stock) NaN.

Definition daily_return_at (stock : list Bar) (i : nat) : float :=
  nth i (Daily_Return stock) NaN.

Definition ma_volume_at (stock : list Bar) (i : nat) : float :=
  nth i (MA20_Volume stock) NaN.

(** Row [i] passes the filter of line 35. *)
Definition qualifies (stock : list Bar) (start_date : Z)
    (volume_threshold price_threshold : Q) (i : nat) : bool :=
  nth i (breakout_mask stock start_date volume_threshold price_threshold) false.

Definition qualifying (stock : list Bar) (start_date : Z)
    (volume_threshold price_threshold : Q) : list nat :=
  filter (qualifies stock start_date volume_threshold price_threshold)
         (seq 0 (List.length stock)).

(** The position [min(i + holding_period, last)]. *)
Definition exit_index (stock : list Bar) (holding_period : Z) (i : nat) : nat :=
  Z.to_nat (Z.min (Z.of_nat i + holding_period) (Z.of_nat (List.length stock) - 1)).

Definition forward_return_at (stock : list Bar) (holding_period : Z) (i : nat)
  : float :=
  let entry_close := close_at stock i in
  let exit_close := close_at stock (exit_index stock holding_period i) in
  fdiv (fsub (Fin exit_close) (Fin entry_close)) (Fin entry_close).

Definition signal_at (stock : list Bar) (holding_period : Z) (i : nat)
  : Signal.t :=
  let e := exit_index stock holding_period i in
  {| Signal.Entry_Date := date_at stock i;
     Signal.Entry_Price := round2 (Fin (close_at stock i));
     Signal.Exit_Date := date_at stock e;
     Signal.Exit_Price := round2 (Fin (close_at stock e));
     Signal.Volume := volume_at stock i;
     Signal.Volume_Ratio := round2 (volume_ratio_at stock i);
     Signal.Daily_Return := format_pct1 (daily_return_at stock i);
     Signal.Forward_Return := format_pct1 (forward_return_at stock holding_period i) |}.

(** What survives of a number when it is written with [format_pct1] and
    read back: the percentage, rounded to one digit after the point. *)
Definition round_pct1 (x : float) : float :=
  match x with
  | Fin q => fin (round_half_even (q * 1000) # 10)
  | _ => x
  end.

Definition is_digit (c : ascii) : Prop :=
  In c ["0"; "1"; "2"; "3"; "4"; "5"; "6"; "7"; "8"; "9"]%char.

(** The data model of the series: closes are positive, volumes are not
    negative, no date occurs twice. *)
Definition unique_dates (stock : list Bar) : Prop := NoDup (map Date stock).

Definition positive_closes (stock : list Bar) : Prop :=
  forall b, In b stock -> (0 < Close b)%Q.


(** ** What a run shows *)

Definition emitted (m : M unit) : list element := page (fst (m fresh)).

Definition requested (m : M unit) : list (string * Z * Z) := fetches (fst (m fresh)).

Definition outcome (m : M unit) : result unit := snd (m fresh).

Definition reported_signals (m : M unit) : list Signal.t := tables (emitted m).

(** The message of lines 56 to 58. *)
Definition no_signals (ticker : string) : element :=
  error [Lit "No breakout signals found for "; Lit ticker;
         Lit " with the given parameters."]%string.

(** The elements of lines 63 to 74 for a table [df] and a mean [avg]. *)
Definition summary (start_date end_date : Z) (volume_threshold price_threshold : Q)
    (holding_period : Z) (df : list Signal.t) (avg : float) (pressed : bool)
  : list element :=
  [ subheader "Results";
    write [Lit "Total Signals: "; Of_int (Z.of_nat (List.length df))];
    write [Lit "Average Forward Return: "; Lit (format_1f avg); Lit "%"];
    write [Lit "Analysis Period: "; Of_date start_date; Lit " to "; Of_date end_date];
    write [Lit "Volume Threshold: "; Of_float (fmul (Fin volume_threshold) (Fin 100));
           Lit "%"];
    write [Lit "Price Threshold: "; Of_float (fmul (Fin price_threshold) (Fin 100));
           Lit "%"];
    write [Lit "Holding Period: "; Of_int holding_period; Lit " days"];
    dataframe df;
    download_button "Download Report as CSV" df "breakout_analysis.csv" "text/csv"
  ]%string ++ (if pressed then [experimental_rerun] else []).

(** The series that a run works on. *)
Definition fetched (env : Env) (ticker : string) (start_date end_date : Z)
  : list Bar :=
  provider env ticker (start_date - 40) end_date.

(** The world [w] after a run that has shown [p] and requested [f]. *)
Definition extend (w : World) (p : list element) (f : list (string * Z * Z))
  : World :=
  {| page := page w ++ p; fetches := fetches w ++ f |}.

(** A run that only adds to the page and to the requests, and does the
    same whatever the page and the requests were before. *)
Definition framed {A} (m : M A) : Prop :=
  forall w, m w = (extend w (page (fst (m fresh))) (fetches (fst (m fresh))),
                   snd (m fresh)).

(** ** Sample data *)

(** [n] days from day [d0] on with one close and one volume. *)
Definition flat (n : nat) (d0 : Z) (c : Q) (v : Z) : list Bar :=
  map (fun i => {| Date := d0 + Z.of_nat i; Close := c; Volume := v |}) (seq 0 n).

(** Twenty quiet days from day 100 on, then a jump in price and volume on
    day 120 and another on day 123. *)
Definition sample : list Bar :=
  flat 20 100 100 1000
  ++ [ {| Date := 120; Close := 125; Volume := 5000 |};
       {| Date := 121; Close := 1268 # 10; Volume := 1000 |};
       {| Date := 122; Close := 1268 # 10; Volume := 1000 |};
       {| Date := 123; Close := 250; Volume := 5000 |};
       {| Date := 124; Close := 2537 # 10; Volume := 1000 |} ].

(** Sixty days on which nothing happens. *)
Definition quiet : list Bar := flat 60 100 100 1000.


(** A provider that answers with the days of [stock] from [start] up to,
    and without, [end_], as yfinance does. *)
Definition market (stock : list Bar) (pressed : bool) : Env :=
  {| provider := fun _ start end_ =>
       filter (fun b => (start <=? Date b) && (Date b <? end_)) stock;
     download_pressed := pressed |}.

(** A provider that answers with all of [stock], whatever was asked. *)
Definition all_of (stock : list Bar) (pressed : bool) : Env :=
  {| provider := fun _ _ _ => stock; download_pressed := pressed |}.

(** The widgets that [main] shows before it looks at what was entered. *)
Definition form : list element :=
  [ title "Stock Breakout Strategy Analyzer";
    text_input "Enter ticker symbol (e.g., AAPL)" "AAPL";
    date_input "Start date";
    date_input "End date";
    number_input "Volume threshold (e.g., 2 for 200%)" (1 # 10) None 2;
    number_input "Price threshold (e.g., 0.02 for 2%)" (1 # 100) (Some 1%Q) (2 # 100);
    number_input "Holding period in days" 1 None 10;
    button "Run Analysis" ]%string.


(** ** [validate_input] *)

(** The values that [validate_input] can be given and can return. *)
Inductive value : Type :=
| VNone
| VStr (s : string)
| VInt (n : Z)
| VFloat (x : float)
| VDate (d : Z).

(** The three conversions of the standard library that [validate_input]
    calls: [datetime.strptime(_, '%Y-%m-%d')], [float] and [int].  Each
    returns a value or raises. *)
Record Builtins : Type := {
  strptime : value -> result value;
  float_of : value -> result value;
  int_of : value -> result value }.

(** Lines 10 to 15: the conversion that [input_type] asks for; any other
    [input_type] leaves the input as it is. *)
Definition convert (py : Builtins) (user_input : value) (input_type : string)
  : result value :=
  if String.eqb input_type "date" then strptime py user_input
  else if String.eqb input_type "float" then float_of py user_input
  else if String.eqb input_type "int" then int_of py user_input
  else Ok user_input.

(** Lines 10 to 19, the body of the [try]: [validation_fn] is [None] or a
    function, whose result is taken for its truth. *)
Definition validated (py : Builtins) (user_input : value) (input_type : string)
    (validation_fn : option (value -> result bool)) : result value :=
  (let? converted := convert py user_input input_type in
   match validation_fn with
   | Some fn =>
       let? accepted := fn converted in
       if accepted then Ok converted else Raise ValueError
   | None => Ok converted
   end)%result.

Definition validate_input (py : Builtins) (user_input : value)
    (input_type : string) (validation_fn : option (value -> result bool))
  : M value :=
  match validated py user_input input_type validation_fn with
  | Ok converted => ret converted
  | Raise ValueError | Raise TypeError =>
      bind (st (error [Lit "Invalid input. Please try again."%string]))
           (fun _ => ret VNone)
  | Raise e => lift (Raise e)
  end.

(** The function accepts the converted value: there is no function, or it
    returns true. *)
Definition accepts (validation_fn : option (value -> result bool)) (v : value)
  : Prop :=
  match validation_fn with
  | Some fn => fn v = Ok true
  | None => True
  end.

(** Conversions for the examples: [float] reads the texts that
    [parse_float] reads and takes numbers as they are, [int] takes integers
    only, and no text is a date. *)
Definition readers : Builtins :=
  {| strptime := fun v =>
       match v with VStr _ => Raise ValueError | _ => Raise TypeError end;
     float_of := fun v =>
       match v with
       | VStr s => match parse_float s with
                   | Some x => Ok (VFloat x)
                   | None => Raise ValueError
                   end
       | VFloat _ => Ok v
       | VInt n => Ok (VFloat (Fin (inject_Z n)))
       | _ => Raise TypeError
       end;
     int_of := fun v =>
       match v with
       | VInt _ => Ok v
       | VStr _ => Raise ValueError
       | _ => Raise TypeError
       end |}.

Definition positive_float (v : value) : result bool :=
  match v with
  | VFloat x => Ok (fgt x (Fin 0))
  | _ => Raise TypeError
  end.


(** A visitor who has entered dates and has not pressed the button. *)
Definition idle : Session :=
  {| ticker_entered := "T";
     start_entered := 120;
     end_entered := 130;
     volume_threshold_entered := 2;
     price_threshold_entered := 2 # 100;
     holding_period_entered := 10;
     run_pressed := false |}.

(** The message of line 21. *)
Definition invalid_input : element :=
  error [Lit "Invalid input. Please try again."%string].

(** * The script on binary64 numbers

    The definitions above compute with exact fractions, which is enough
    for what a run does with dates, positions and labels.  Where the
    digits of a number decide (which side of a threshold a return falls
    on, what a rounded or formatted number looks like, what the mean of
    re-read percentages is), the script has to be followed on the numbers
    it really computes with.  This module does so: the same functions, on
    the binary64 floats of Rocq, whose operations are those of IEEE 754
    with rounding to nearest, ties to even.  Exceptions, loops, label
    lookups by position and the reading of digits are shared with the first
    part. *)

Module Binary64.

Import Floats.
#[local] Set Warnings "-inexact-float".

(** ** Numbers *)

Definition pow2 (k : Z) : Q :=
  if 0 <=? k then inject_Z (2 ^ k) else 1 # Z.to_pos (2 ^ (- k)).

(** The integer [n] as a float ([float(n)], or the cast of an [int64]
    column to [float64]): exact up to [2 ^ 53], rounded beyond. *)
Definition of_int (n : Z) : float :=
  SF2Prim (binary_normalize prec emax n 0 false).

(** The largest [k] with [2 ^ k <= |q|], for [q] other than zero. *)
Definition ilog2 (q : Q) : Z :=
  let k := Z.log2 (Z.abs (Qnum q)) - Z.log2 (Zpos (Qden q)) in
  if Qlt_bool (Qabs q) (pow2 k) then k - 1 else k.

(** The float nearest to the fraction [q], ties to even: a mantissa of
    53 bits where the exponent allows it, fewer below [2 ^ -1022], and an
    infinity from [2 ^ 1024 - 2 ^ 970] on. *)
Definition nearest (q : Q) : float :=
  let q := Qred q in
  if Qeq_bool q 0 then zero
  else
    let e := Z.max (ilog2 q - 52) (-1074) in
    Z.ldexp (of_int (round_half_even (q / pow2 e))) e.

(** [numpy.rint]: the nearest integer, ties to even, with the sign kept. *)
Definition rint (x : float) : float :=
  match Prim2SF x with
  | S754_finite s m e =>
      let n := of_int (round_half_even (inject_Z (Zpos m) * pow2 e)) in
      if s then (- n)%float else n
  | _ => x
  end.

(** [round(x, 2)] of a [numpy.float64]: numpy multiplies by [10 ** 2],
    rounds to an integer and divides again, each step in binary64. *)
Definition round2 (x : float) : float := (rint (x * 100) / 100)%float.

Local Open Scope string_scope.

(** [f"{x:.1f}"]: the decimal with one digit after the point nearest to
    the exact value of [x], ties to even; the sign is the sign bit, also
    for a zero and for what rounds to zero. *)
Definition format_1f (x : float) : string :=
  match Prim2SF x with
  | S754_nan => "nan"
  | S754_infinity s => if s then "-inf" else "inf"
  | S754_zero s => fixed1 s 0
  | S754_finite s m e => fixed1 s (round_half_even (inject_Z (Zpos m) * pow2 e * 10))
  end.

(** [f"{x:.1%}"]: Python multiplies by 100 in binary64, formats the
    product as [.1f] does and appends a percent sign. *)
Definition format_pct1 (x : float) : string := format_1f (x * 100) ++ "%".

(** [float(s)] on the texts that the two formats produce; the value is the
    float nearest to the decimal, and a minus sign sets the sign bit.
    [None] stands for [ValueError]. *)
Definition parse_float (s : string) : option float :=
  if String.eqb s "nan" then Some nan
  else if String.eqb s "inf" then Some infinity
  else if String.eqb s "-inf" then Some neg_infinity
  else match s with
       | String "-" s' =>
           match parse_unsigned s' with
           | Some q => Some (- nearest q)%float
           | None => None
           end
       | _ =>
           match parse_unsigned s with
           | Some q => Some (nearest q)
           | None => None
           end
       end.

Local Close Scope string_scope.

(** What [float(f"{x:.1%}".rstrip('%'))] is: the percentage, rounded to
    one digit after the point and then to the nearest float. *)
Definition round_pct1 (x : float) : float :=
  let y := (x * 100)%float in
  match Prim2SF y with
  | S754_finite s m e =>
      let r := nearest (round_half_even (inject_Z (Zpos m) * pow2 e * 10) # 10) in
      if s then (- r)%float else r
  | _ => y
  end.

(** ** numpy and pandas *)

Definition add_all (start : float) (xs : list float) : float :=
  fold_left add xs start.

(** The loop over blocks of eight of numpy's pairwise summation: entry [j]
    of each block is added to accumulator [j]. *)
Fixpoint unrolled (blocks : nat) (r xs : list float) : list float * list float :=
  match blocks with
  | O => (r, xs)
  | S k =>
      unrolled k (map (fun '(a, x) => (a + x)%float) (combine r (firstn 8 xs)))
               (skipn 8 xs)
  end.

(** From 8 to 128 numbers: eight accumulators, added up as a tree, then
    the numbers left over when the length is no multiple of eight. *)
Definition block_sum (xs : list float) : float :=
  let '(r, rest) :=
    unrolled (List.length xs / 8 - 1) (firstn 8 xs) (skipn 8 xs) in
  match r with
  | [r0; r1; r2; r3; r4; r5; r6; r7] =>
      add_all (((r0 + r1) + (r2 + r3)) + ((r4 + r5) + (r6 + r7)))%float rest
  | _ => nan
  end.

(** numpy's [pairwise_sum]: fewer than eight numbers are added from left
    to right, up to 128 as [block_sum] does, and more are cut in two at a
    multiple of eight.  [depth] bounds the cuts; the length is enough. *)
Fixpoint pairwise_sum (depth : nat) (xs : list float) : float :=
  let n := List.length xs in
  if (n <? 8)%nat then add_all zero xs
  else if (n <=? 128)%nat then block_sum xs
  else match depth with
       | O => block_sum xs
       | S d =>
           let n2 := (n / 2 - (n / 2) mod 8)%nat in
           (pairwise_sum d (firstn n2 xs) + pairwise_sum d (skipn n2 xs))%float
       end.

(** [values.sum()] of a [float64] array: the reduction starts from the
    identity of [add]. *)
Definition np_sum (xs : list float) : float :=
  (zero + pairwise_sum (List.length xs) xs)%float.

(** The column with 0 in the place of each NaN, and the number of its
    entries that are not NaN. *)
Definition fillna (xs : list float) : list float :=
  map (fun x => if is_nan x then zero else x) xs.

Definition count (xs : list float) : nat :=
  List.length (filter (fun x => negb (is_nan x)) xs).

(** [Series.mean()] of a [float64] column: NaN entries count as 0 in the
    sum and are left out of the count; no entry left gives NaN. *)
Definition mean (xs : list float) : float :=
  if (count xs =? 0)%nat then nan
  else (np_sum (fillna xs) / of_int (Z.of_nat (count xs)))%float.

(** One row of the frame that [yf.download] returns, after [droplevel]:
    the index label, the [float64] column [Close] and the [int64] column
    [Volume]. *)
Record Bar : Type := { Date : Z; Close : float; Volume : Z }.

Fixpoint pct_change_from (prev : float) (xs : list float) : list float :=
  match xs with
  | [] => []
  | x :: xs' => (x / prev - 1)%float :: pct_change_from x xs'
  end.

(** [Series.pct_change()] on a column without NaN: NaN in the first row,
    then [x / previous - 1]. *)
Definition pct_change (xs : list float) : list float :=
  match xs with
  | [] => []
  | x :: xs' => nan :: pct_change_from x xs'
  end.

(** [Series.rolling(window).mean()] on an integer column: NaN until
    [window] rows are there, then the sum of the last [window] rows, the
    current one included, divided by their number.  pandas keeps the sum
    of the window in a float; as long as the sums stay below [2 ^ 53] it is
    the exact sum, and the division is the one rounding. *)
Definition rolling_mean (window : nat) (xs : list Z) : list float :=
  map (fun i =>
         if (S i <? window)%nat then nan
         else (of_int (sumZ (firstn window (skipn (S i - window) xs)))
               / of_int (Z.of_nat window))%float)
      (seq 0 (List.length xs)).

(** [a.div(b)] on an integer and a float column of one frame. *)
Definition series_div (a : list Z) (b : list float) : list float :=
  map (fun '(v, m) => (of_int v / m)%float) (combine a b).

(** [index.is_monotonic_increasing]: no label is below the one before. *)
Fixpoint is_monotonic_increasing (index : list Z) : bool :=
  match index with
  | x :: (y :: _) as index' => (x <=? y) && is_monotonic_increasing index'
  | _ => true
  end.

(** What [index.get_loc(d)] returns: a position for a label that occurs
    once; for a label that occurs more often a slice when the index is
    monotonic, and a mask over all rows when it is not. *)
Inductive location : Type :=
| At (i : nat)
| Slice (start stop : nat)
| Mask (rows : list bool).

Definition get_loc (index : list Z) (d : Z) : result location :=
  match positions_from 0 d index with
  | [] => Raise KeyError
  | [i] => Ok (At i)
  | i :: rest =>
      if is_monotonic_increasing index
      then Ok (Slice i (S (last rest i)))
      else Ok (Mask (map (Z.eqb d) index))
  end.

(** Line 40, [min(get_loc(date) + holding_period, len(index) - 1)]: a
    slice cannot be added to ([TypeError]); a mask can, and [min] then asks
    for the truth value of an array ([ValueError]). *)
Definition future_index (l : location) (holding_period : Z) (len : nat)
  : result Z :=
  match l with
  | At i => Ok (Z.min (Z.of_nat i + holding_period) (Z.of_nat len - 1))
  | Slice _ _ => Raise TypeError
  | Mask _ => Raise ValueError
  end.

(** What [frame.loc[d, column]] returns: the entry of the row for a label
    that occurs once, the column of its rows for one that occurs more
    often. *)
Inductive cell (A : Type) : Type :=
| Scalar (a : A)
| Series (rows : list A).
Arguments Scalar {A} a.
Arguments Series {A} rows.

Definition loc {A} (index : list Z) (column : list A) (d : Z) : result (cell A) :=
  match positions_from 0 d index with
  | [] => Raise KeyError
  | [i] =>
      match nth_error column i with
      | Some a => Ok (Scalar a)
      | None => Raise KeyError
      end
  | rows =>
      Ok (Series (flat_map (fun i => match nth_error column i with
                                     | Some a => [a]
                                     | None => []
                                     end) rows))
  end.

(** The number in a cell, where lines 46 to 53 need one.  Arithmetic and
    [round] go through on a column; the format of line 53 and [int] do not,
    and both raise [TypeError]. *)
Definition number {A} (c : cell A) : result A :=
  match c with
  | Scalar a => Ok a
  | Series _ => Raise TypeError
  end.

(** ** The columns that [analyze_breakouts] adds, and its filter *)

Definition Daily_Return (stock : list Bar) : list float :=
  pct_change (map Close stock).

Definition MA20_Volume (stock : list Bar) : list float :=
  rolling_mean 20 (map Volume stock).

Definition Volume_Ratio (stock : list Bar) : list float :=
  series_div (map Volume stock) (MA20_Volume stock).

(** The mask of line 35. *)
Definition breakout_mask (stock : list Bar) (start_date : Z)
    (volume_threshold price_threshold : float) : list bool :=
  mask_and
    (mask_and (map (fun d => start_date <=? d) (map Date stock))
              (map (fun r => (volume_threshold <? r)%float) (Volume_Ratio stock)))
    (map (fun r => (price_threshold <? r)%float) (Daily_Return stock)).

(** [breakouts.index] *)
Definition breakouts (stock : list Bar) (start_date : Z)
    (volume_threshold price_threshold : float) : list Z :=
  select (map Date stock)
         (breakout_mask stock start_date volume_threshold price_threshold).

(** ** One row of the results *)

Module Signal.

Record t : Type := {
  Entry_Date : Z;
  Entry_Price : float;
  Exit_Date : Z;
  Exit_Price : float;
  Volume : Z;
  Volume_Ratio : float;
  Daily_Return : string;
  Forward_Return : string }.

End Signal.

(** The body of the loop of lines 38 to 54. *)
Definition signal_of (stock : list Bar) (holding_period : Z) (date : Z)
  : result Signal.t :=
  let index := map Date stock in
  (let? entry := loc index (map Close stock) date in
   let? here := get_loc index date in
   let? future_idx := future_index here holding_period (List.length index) in
   let? future_date := getitem index future_idx in
   let? exit := loc index (map Close stock) future_date in
   let? entry_price := number entry in
   let? exit_price := number exit in
   let forward_return := ((exit_price - entry_price) / entry_price)%float in
   let? volume := rbind (loc index (map Volume stock) date) number in
   let? volume_ratio := rbind (loc index (Volume_Ratio stock) date) number in
   let? daily_return := rbind (loc index (Daily_Return stock) date) number in
   Ok {| Signal.Entry_Date := date;
         Signal.Entry_Price := round2 entry_price;
         Signal.Exit_Date := future_date;
         Signal.Exit_Price := round2 exit_price;
         Signal.Volume := volume;
         Signal.Volume_Ratio := round2 volume_ratio;
         Signal.Daily_Return := format_pct1 daily_return;
         Signal.Forward_Return := format_pct1 forward_return |})%result.

(** ** Streamlit and yfinance *)

Inductive piece : Type :=
| Lit (s : string)
| Of_date (d : Z)
| Of_float (x : float)
| Of_int (n : Z).

Inductive element : Type :=
| error (body : list piece)
| subheader (body : string)
| write (body : list piece)
| dataframe (data : list Signal.t)
| download_button (label : string) (data : list Signal.t) (file_name mime : string).

Record World : Type := {
  page : list element;
  fetches : list (string * Z * Z) }.

Definition M (A : Type) : Type := World -> World * result A.

Definition ret {A} (a : A) : M A := fun w => (w, Ok a).

Definition bind {A B} (m : M A) (k : A -> M B) : M B :=
  fun w =>
    match m w with
    | (w', Ok a) => k a w'
    | (w', Raise e) => (w', Raise e)
    end.

Definition lift {A} (r : result A) : M A := fun w => (w, r).

Definition st (e : element) : M unit :=
  fun w => ({| page := page w ++ [e]; fetches := fetches w |}, Ok tt).

(** What a run finds outside: the market data provider behind
    [yf.download], whether the visitor has pressed the download button,
    and whether the Streamlit at hand still has [experimental_rerun]. *)
Record Env : Type := {
  provider : string -> Z -> Z -> list Bar;
  download_pressed : bool;
  rerun_available : bool }.

Definition yf_download (env : Env) (ticker : string) (start end_ : Z)
  : M (list Bar) :=
  fun w =>
    ({| page := page w; fetches := fetches w ++ [(ticker, start, end_)] |},
     Ok (provider env ticker start end_)).

(** [st.experimental_rerun()] does not return: it stops the script with
    Streamlit's [RerunException]; where the function has been removed, the
    attribute lookup raises [AttributeError]. *)
Definition rerun_exception (env : Env) : exn :=
  if rerun_available env then RerunException else AttributeError.

Definition experimental_rerun (env : Env) : M unit :=
  lift (Raise (rerun_exception env)).

(** Line 61. *)
Definition avg_return_of (results : list Signal.t) : result float :=
  match results with
  | [] => Raise KeyError
  | _ =>
      (let? xs :=
         for_each (fun r =>
                     match parse_float (rstrip_pct (Signal.Forward_Return r)) with
                     | Some x => Ok x
                     | None => Raise ValueError
                     end) results in
       Ok (mean xs))%result
  end.

Declare Scope run64_scope.
Delimit Scope run64_scope with run64.
Notation "x <- m ;; k" := (bind m (fun x => k))
  (at level 61, m at next level, right associativity) : run64_scope.
Notation "m ;; k" := (bind m (fun _ => k))
  (at level 61, right associativity) : run64_scope.

Local Open Scope string_scope.
Local Open Scope run64_scope.

Definition analyze_breakouts (env : Env) (ticker : string)
    (start_date end_date : Z) (volume_threshold price_threshold : float)
    (holding_period : Z) : M unit :=
  let buffer_start := (start_date - 40)%Z in
  stock <- yf_download env ticker buffer_start end_date ;;
  let breakouts := breakouts stock start_date volume_threshold price_threshold in
  results <- lift (for_each (signal_of stock holding_period) breakouts) ;;
  match results with
  | [] =>
      st (error [Lit "No breakout signals found for "; Lit ticker;
                 Lit " with the given parameters."])
  | _ =>
      let df := results in
      avg_return <- lift (avg_return_of df) ;;
      st (subheader "Results") ;;
      st (write [Lit "Total Signals: "; Of_int (Z.of_nat (List.length df))]) ;;
      st (write [Lit "Average Forward Return: "; Lit (format_1f avg_return);
                 Lit "%"]) ;;
      st (write [Lit "Analysis Period: "; Of_date start_date; Lit " to ";
                 Of_date end_date]) ;;
      st (write [Lit "Volume Threshold: "; Of_float (volume_threshold * 100)%float;
                 Lit "%"]) ;;
      st (write [Lit "Price Threshold: "; Of_float (price_threshold * 100)%float;
                 Lit "%"]) ;;
      st (write [Lit "Holding Period: "; Of_int holding_period; Lit " days"]) ;;
      st (dataframe df) ;;
      st (download_button "Download Report as CSV" df
                          "breakout_analysis.csv" "text/csv") ;;
      if download_pressed env then experimental_rerun env else ret tt
  end.

Local Close Scope run64_scope.
Local Close Scope string_scope.

Definition fresh : World := {| page := []; fetches := [] |}.

(** The rows of the tables on a page. *)
Definition tables (p : list element) : list Signal.t :=
  flat_map (fun e => match e with dataframe d => d | _ => [] end) p.

(** ** The rows by position *)

Definition date_at (stock : list Bar) (i : nat) : Z := nth i (map Date stock) 0.

Definition close_at (stock : list Bar) (i : nat) : float :=
  nth i (map Close stock) nan.

Definition volume_at (stock : list Bar) (i : nat) : Z := nth i (map Volume stock) 0.

Definition volume_ratio_at (stock : list Bar) (i : nat) : float :=
  nth i (Volume_Ratio stock) nan.

Definition daily_return_at (stock : list Bar) (i : nat) : float :=
  nth i (Daily_Return stock) nan.

(** Row [i] passes the filter of line 35. *)
Definition qualifies (stock : list Bar) (start_date : Z)
    (volume_threshold price_threshold : float) (i : nat) : bool :=
  nth i (breakout_mask stock start_date volume_threshold price_threshold) false.

Definition qualifying (stock : list Bar) (start_date : Z)
    (volume_threshold price_threshold : float) : list nat :=
  filter (qualifies stock start_date volume_threshold price_threshold)
         (seq 0 (List.length stock)).

(** The position [min(i + holding_period, last)]. *)
Definition exit_index (stock : list Bar) (holding_period : Z) (i : nat) : nat :=
  Z.to_nat (Z.min (Z.of_nat i + holding_period) (Z.of_nat (List.length stock) - 1)).

Definition forward_return_at (stock : list Bar) (holding_period : Z) (i : nat)
  : float :=
  let entry_close := close_at stock i in
  let exit_close := close_at stock (exit_index stock holding_period i) in
  ((exit_close - entry_close) / entry_close)%float.

Definition signal_at (stock : list Bar) (holding_period : Z) (i : nat)
  : Signal.t :=
  let e := exit_index stock holding_period i in
  {| Signal.Entry_Date := date_at stock i;
     Signal.Entry_Price := round2 (close_at stock i);
     Signal.Exit_Date := date_at stock e;
     Signal.Exit_Price := round2 (close_at stock e);
     Signal.Volume := volume_at stock i;
     Signal.Volume_Ratio := round2 (volume_ratio_at stock i);
     Signal.Daily_Return := format_pct1 (daily_return_at stock i);
     Signal.Forward_Return := format_pct1 (forward_return_at stock holding_period i) |}.

(** The data model of the series: a close is a positive number, a volume
    is a count below [2 ^ 48], no date occurs twice.  On such a series the
    columns above are the columns that pandas computes: no close is NaN,
    and the volumes of a window add up without rounding. *)
Definition is_price (c : float) : bool := ((0 <? c) && (c <? infinity))%float.

Definition prices (stock : list Bar) : Prop :=
  forall b, In b stock -> is_price (Close b) = true.

Definition volumes (stock : list Bar) : Prop :=
  forall b, In b stock -> 0 <= Volume b < 2 ^ 48.

Definition unique_dates (stock : list Bar) : Prop := NoDup (map Date stock).

(** ** What a run shows *)

Definition emitted (m : M unit) : list element := page (fst (m fresh)).

Definition requested (m : M unit) : list (string * Z * Z) := fetches (fst (m fresh)).

Definition outcome (m : M unit) : result unit := snd (m fresh).

Definition reported_signals (m : M unit) : list Signal.t := tables (emitted m).

(** The message of lines 56 to 58. *)
Definition no_signals (ticker : string) : element :=
  error [Lit "No breakout signals found for "; Lit ticker;
         Lit " with the given parameters."]%string.

(** The elements of lines 63 to 72 for a table [df] and a mean [avg]. *)
Definition summary (start_date end_date : Z) (volume_threshold price_threshold : float)
    (holding_period : Z) (df : list Signal.t) (avg : float) : list element :=
  [ subheader "Results";
    write [Lit "Total Signals: "; Of_int (Z.of_nat (List.length df))];
    write [Lit "Average Forward Return: "; Lit (format_1f avg); Lit "%"];
    write [Lit "Analysis Period: "; Of_date start_date; Lit " to "; Of_date end_date];
    write [Lit "Volume Threshold: "; Of_float (volume_threshold * 100)%float; Lit "%"];
    write [Lit "Price Threshold: "; Of_float (price_threshold * 100)%float; Lit "%"];
    write [Lit "Holding Period: "; Of_int holding_period; Lit " days"];
    dataframe df;
    download_button "Download Report as CSV" df "breakout_analysis.csv" "text/csv"
  ]%string.

(** The series that a run works on. *)
Definition fetched (env : Env) (ticker : string) (start_date end_date : Z)
  : list Bar :=
  provider env ticker (start_date - 40) end_date.


(** ** Sample data *)

(** [n] days from day [d0] on with one close and one volume. *)
Definition flat (n : nat) (d0 : Z) (c : float) (v : Z) : list Bar :=
  map (fun i => {| Date := d0 + Z.of_nat i; Close := c; Volume := v |}) (seq 0 n).

(** A provider that answers with the days of [stock] from [start] up to,
    and without, [end_]. *)
Definition market (stock : list Bar) (pressed : bool) : Env :=
  {| provider := fun _ start end_ =>
       filter (fun b => (start <=? Date b) && (Date b <? end_)) stock;
     download_pressed := pressed;
     rerun_available := true |}.

(** Twenty quiet days from day 100 on, then a day on which the close
    rises from 100 to 102 on five times the volume. *)
Definition rise : list Bar :=
  flat 20 100 100 1000 ++ [ {| Date := 120; Close := 102; Volume := 5000 |} ].

(** Nineteen quiet days, then a day on which the close rises by one half
    exactly, on twice the mean volume of the last twenty days exactly. *)
Definition level : list Bar :=
  flat 19 100 100 9000
  ++ [ {| Date := 119; Close := 100; Volume := 9000 |};
       {| Date := 120; Close := 150; Volume := 19000 |} ].

(** Three jumps in price and volume, each followed by a small rise on the
    next day: 0.24%, 0.24% and 0.34%. *)
Definition three : list Bar :=
  flat 20 100 100 1000
  ++ [ {| Date := 120; Close := 125; Volume := 5000 |};
       {| Date := 121; Close := 125.3; Volume := 1000 |};
       {| Date := 122; Close := 125.3; Volume := 1000 |};
       {| Date := 123; Close := 250; Volume := 5000 |};
       {| Date := 124; Close := 250.6; Volume := 1000 |};
       {| Date := 125; Close := 250.6; Volume := 1000 |};
       {| Date := 126; Close := 500; Volume := 5000 |};
       {| Date := 127; Close := 501.7; Volume := 1000 |} ].

(** Two jumps on the last two days of the series: the close doubles
    from the first to the second. *)
Definition doubling : list Bar :=
  flat 20 100 100 1000
  ++ [ {| Date := 120; Close := 125; Volume := 5000 |};
       {| Date := 121; Close := 250; Volume := 5000 |} ].

(** [doubling] with its first jump entered twice, and the same with an
    older day in between, so that the dates no longer ascend. *)
Definition twice : list Bar :=
  flat 20 100 100 1000
  ++ [ {| Date := 120; Close := 125; Volume := 5000 |};
       {| Date := 120; Close := 125; Volume := 5000 |};
       {| Date := 121; Close := 250; Volume := 5000 |} ].

Definition shuffled : list Bar :=
  flat 20 100 100 1000
  ++ [ {| Date := 120; Close := 125; Volume := 5000 |};
       {| Date := 119; Close := 125; Volume := 1000 |};
       {| Date := 120; Close := 250; Volume := 5000 |} ].

(** A provider that answers with all of [stock], whatever was asked. *)
Definition all_of (stock : list Bar) (pressed available : bool) : Env :=
  {| provider := fun _ _ _ => stock;
     download_pressed := pressed;
     rerun_available := available |}.

End Binary64.

(** * Proofs *)

(** ** Formatting a percentage and reading it back *)

Lemma to_uint_not_Nil (n : N) : N.to_uint n <> Decimal.Nil.
Proof.
  destruct n as [|p]; simpl.
  - discriminate.
  - apply DecimalPos.Unsigned.to_uint_nonnil.
Qed.

Lemma digits_head (n : N) :
  exists c r, digits n = String c r /\ is_digit c.
Proof.
  unfold digits, is_digit.
  pose proof (to_uint_not_Nil n) as Hn.
  destruct (N.to_uint n); [congruence | ..]; simpl;
    eexists; eexists; (split; [reflexivity | simpl; tauto]).
Qed.

Lemma digits_lt10 (n : N) :
  (n < 10)%N -> exists c, digits n = String c EmptyString /\ is_digit c.
Proof.
  intros H. rewrite <- (N2Nat.id n).
  assert (N.to_nat n < 10)%nat as Hk by lia.
  revert Hk. generalize (N.to_nat n) as k. intros k Hk.
  do 10 (destruct k as [|k];
         [eexists; split; [reflexivity | unfold is_digit; simpl; tauto] |]).
  lia.
Qed.

Lemma split_point_uint (d : Decimal.uint) (r : string) :
  split_point (NilEmpty.string_of_uint d ++ String "." r)
  = Some (NilEmpty.string_of_uint d, r).
Proof.
  induction d; simpl; try rewrite IHd; reflexivity.
Qed.

Lemma digit_not_pct (c : ascii) : is_digit c -> Ascii.eqb c "%" = false.
Proof.
  unfold is_digit; simpl.
  intros H; repeat (destruct H as [<- | H]; [reflexivity |]); contradiction.
Qed.

Lemma rstrip_pct_fixed (a : string) (c : ascii) :
  is_digit c ->
  rstrip_pct (a ++ String "." (String c "%")) = (a ++ String "." (String c ""))%string.
Proof.
  intros Hc. induction a as [|x a IH]; simpl.
  - rewrite (digit_not_pct c Hc). reflexivity.
  - rewrite IH. destruct a; reflexivity.
Qed.

Lemma string_app_assoc (a b c : string) :
  ((a ++ b) ++ c = a ++ (b ++ c))%string.
Proof.
  induction a as [|x a IH]; simpl; [reflexivity | now rewrite IH].
Qed.

Lemma parse_unsigned_digits (a b : N) :
  (b < 10)%N ->
  parse_unsigned (digits a ++ String "." (digits b))
  = Some (inject_Z (Z.of_N a) + (Z.of_N b # 10))%Q.
Proof.
  intros Hb. unfold parse_unsigned.
  unfold digits at 1. rewrite split_point_uint. fold (digits a).
  destruct (digits_head a) as (ca & ra & Ha & _).
  destruct (digits_lt10 b Hb) as (cb & Hb' & _).
  unfold digits in *.
  rewrite !NilEmpty.usu, !DecimalN.Unsigned.of_to.
  rewrite Ha, Hb'. reflexivity.
Qed.

Lemma round_half_even_bounds (q : Q) :
  Qfloor q <= round_half_even q <= Qfloor q + 1.
Proof.
  unfold round_half_even.
  destruct (q - inject_Z (Qfloor q) ?= 1 # 2)%Q; [destruct (Z.even _) | |]; lia.
Qed.

Lemma Qlt_bool_iff (a b : Q) : Qlt_bool a b = true <-> (a < b)%Q.
Proof.
  unfold Qlt_bool. rewrite negb_true_iff.
  split; intros H.
  - apply Qnot_le_lt. intros Hle. apply Qle_bool_iff in Hle. congruence.
  - destruct (Qle_bool b a) eqn:E; [|reflexivity].
    apply Qle_bool_iff in E. exfalso. apply (Qlt_not_le _ _ H E).
Qed.



Lemma tenths_value (m : N) :
  (inject_Z (Z.of_N (m / 10)) + (Z.of_N (m mod 10) # 10) == Z.of_N m # 10)%Q.
Proof.
  unfold Qeq, Qplus, inject_Z; simpl.
  rewrite N2Z.inj_div, N2Z.inj_mod.
  pose proof (Z.div_mod (Z.of_N m) 10 ltac:(lia)).
  change (Z.of_N 10) with 10. lia.
Qed.



(** ** Lists and columns *)

Lemma length_pct_change_from (p : Q) (xs : list Q) :
  List.length (pct_change_from p xs) = List.length xs.
Proof.
  revert p; induction xs as [|x xs IH]; intros p; simpl; [reflexivity | now rewrite IH].
Qed.

Lemma length_pct_change (xs : list Q) :
  List.length (pct_change xs) = List.length xs.
Proof.
  destruct xs; simpl; [reflexivity | now rewrite length_pct_change_from].
Qed.

Lemma length_rolling_mean (w : nat) (xs : list Z) :
  List.length (rolling_mean w xs) = List.length xs.
Proof.
  unfold rolling_mean. now rewrite length_map, length_seq.
Qed.

Lemma length_Daily_Return (stock : list Bar) :
  List.length (Daily_Return stock) = List.length stock.
Proof.
  unfold Daily_Return. now rewrite length_pct_change, length_map.
Qed.

Lemma length_MA20_Volume (stock : list Bar) :
  List.length (MA20_Volume stock) = List.length stock.
Proof.
  unfold MA20_Volume. now rewrite length_rolling_mean, length_map.
Qed.

Lemma length_Volume_Ratio (stock : list Bar) :
  List.length (Volume_Ratio stock) = List.length stock.
Proof.
  unfold Volume_Ratio, series_div.
  rewrite length_map, length_combine, length_MA20_Volume, length_map.
  apply Nat.min_id.
Qed.

Lemma nth_mask_and (a b : list bool) (i : nat) :
  nth i (mask_and a b) false = nth i a false && nth i b false.
Proof.
  unfold mask_and. revert b i.
  induction a as [|x a IH]; intros b i.
  - destruct i; reflexivity.
  - destruct b as [|y b].
    + destruct i; simpl; now rewrite andb_false_r.
    + destruct i; simpl; [reflexivity | apply IH].
Qed.

Lemma nth_map_lt {A B} (f : A -> B) (l : list A) (i : nat) (da : A) (db : B) :
  (i < List.length l)%nat -> nth i (map f l) db = f (nth i l da).
Proof.
  intros H. rewrite (nth_indep _ db (f da)) by (now rewrite length_map).
  apply map_nth.
Qed.

Lemma nth_error_nth_lt {A} (l : list A) (i : nat) (d : A) :
  (i < List.length l)%nat -> nth_error l i = Some (nth i l d).
Proof.
  intros H. now apply nth_error_nth'.
Qed.

Lemma self_map_seq {A} (l : list A) (d : A) :
  l = map (fun i => nth i l d) (seq 0 (List.length l)).
Proof.
  induction l as [|x l IH]; simpl; [reflexivity |].
  f_equal. rewrite <- seq_shift, map_map. exact IH.
Qed.

Lemma select_map_seq (f : nat -> Z) (g : nat -> bool) (k n : nat) :
  select (map f (seq k n)) (map g (seq k n)) = map f (filter g (seq k n)).
Proof.
  unfold select. revert k.
  induction n as [|n IH]; intros k; simpl; [reflexivity |].
  destruct (g k); simpl; now rewrite IH.
Qed.

Lemma length_breakout_mask stock start vt pt :
  List.length (breakout_mask stock start vt pt) = List.length stock.
Proof.
  unfold breakout_mask, mask_and.
  rewrite !length_map, !length_combine, !length_map, !length_combine, !length_map.
  rewrite length_Volume_Ratio, length_Daily_Return. lia.
Qed.

(** The labels that the filter keeps are those of the qualifying positions,
    in the order of the series. *)
Lemma breakouts_qualifying stock start vt pt :
  breakouts stock start vt pt = map (date_at stock) (qualifying stock start vt pt).
Proof.
  unfold breakouts, qualifying, qualifies, date_at.
  rewrite (self_map_seq (map Date stock) 0) at 1.
  rewrite (self_map_seq (breakout_mask stock start vt pt) false) at 1.
  rewrite length_breakout_mask, length_map.
  apply select_map_seq.
Qed.

Lemma qualifies_spec stock start vt pt i :
  (i < List.length stock)%nat ->
  qualifies stock start vt pt i
  = (start <=? date_at stock i)
    && fgt (volume_ratio_at stock i) (Fin vt)
    && fgt (daily_return_at stock i) (Fin pt).
Proof.
  intros Hi. unfold qualifies, breakout_mask.
  rewrite !nth_mask_and.
  unfold date_at, volume_ratio_at, daily_return_at.
  rewrite (nth_map_lt (fun d => start <=? d) _ i 0) by (now rewrite length_map).
  rewrite (nth_map_lt (fun r => fgt r (Fin vt)) _ i NaN) by (now rewrite length_Volume_Ratio).
  rewrite (nth_map_lt (fun r => fgt r (Fin pt)) _ i NaN) by (now rewrite length_Daily_Return).
  reflexivity.
Qed.

Lemma qualifies_lt stock start vt pt i :
  qualifies stock start vt pt i = true -> (i < List.length stock)%nat.
Proof.
  unfold qualifies. intros H.
  destruct (Nat.lt_ge_cases i (List.length stock)) as [Hlt | Hge]; [exact Hlt |].
  rewrite nth_overflow in H by (now rewrite length_breakout_mask).
  discriminate.
Qed.

Lemma in_qualifying stock start vt pt i :
  In i (qualifying stock start vt pt)
  <-> qualifies stock start vt pt i = true.
Proof.
  unfold qualifying. rewrite filter_In, in_seq. split.
  - tauto.
  - intros H. pose proof (qualifies_lt _ _ _ _ _ H). split; [lia | exact H].
Qed.

(** ** Looking a row up by its label *)

Lemma positions_from_absent (k : nat) (d : Z) (index : list Z) :
  ~ In d index -> positions_from k d index = [].
Proof.
  revert k; induction index as [|x index IH]; intros k Hin; simpl; [reflexivity |].
  destruct (Z.eqb_spec x d) as [-> | Hne].
  - exfalso. apply Hin. now left.
  - apply IH. intros H. apply Hin. now right.
Qed.

Lemma positions_from_unique (k i : nat) (d : Z) (index : list Z) :
  NoDup index -> nth_error index i = Some d ->
  positions_from k d index = [(k + i)%nat].
Proof.
  intros Hnd. revert k i.
  induction Hnd as [|x index Hx Hnd IH]; intros k i Hi.
  - destruct i; discriminate.
  - destruct i as [|i]; simpl in *.
    + injection Hi as ->. rewrite Z.eqb_refl.
      rewrite positions_from_absent by assumption.
      now rewrite Nat.add_0_r.
    + destruct (Z.eqb_spec x d) as [-> | Hne].
      * exfalso. apply Hx. eapply nth_error_In; eassumption.
      * rewrite (IH (S k) i Hi). f_equal. lia.
Qed.



Lemma getitem_nat {A} (l : list A) (j : nat) (d : A) :
  (j < List.length l)%nat -> getitem l (Z.of_nat j) = Ok (nth j l d).
Proof.
  intros Hj. unfold getitem.
  destruct (Z.ltb_spec (Z.of_nat j) (- Z.of_nat (List.length l))); [lia |].
  destruct (Z.leb_spec (Z.of_nat (List.length l)) (Z.of_nat j)); [lia |].
  destruct (Z.ltb_spec (Z.of_nat j) 0); [lia |].
  simpl. rewrite Nat2Z.id. now rewrite (nth_error_nth_lt l j d Hj).
Qed.



Lemma for_each_map {A B C} (body : B -> result C) (g : A -> B) (h : A -> C)
    (l : list A) :
  (forall a, In a l -> body (g a) = Ok (h a)) ->
  for_each body (map g l) = Ok (map h l).
Proof.
  induction l as [|a l IH]; intros H; simpl; [reflexivity |].
  rewrite (H a) by (now left). simpl.
  rewrite IH by (intros a' Ha'; apply H; now right).
  reflexivity.
Qed.


(** ** The mean of line 61 *)



(** ** A whole run *)


(** ** Runs on any series *)

Lemma for_each_In {A B} (body : A -> result B) (l : list A) (bs : list B) (b : B) :
  for_each body l = Ok bs -> In b bs -> exists a, In a l /\ body a = Ok b.
Proof.
  revert bs; induction l as [|a l IH]; intros bs H Hb; simpl in H.
  - injection H as <-. contradiction.
  - destruct (body a) as [b0|e] eqn:Ea; simpl in H; [|discriminate].
    destruct (for_each body l) as [bs0|e] eqn:El; simpl in H; [|discriminate].
    injection H as <-. destruct Hb as [<- | Hb].
    + exists a. split; [now left | exact Ea].
    + destruct (IH bs0 eq_refl Hb) as (a' & Ha' & Hbody).
      exists a'. split; [now right | exact Hbody].
Qed.

Lemma positions_from_In (k : nat) (d : Z) (index : list Z) (p : nat) :
  In p (positions_from k d index)
  <-> exists j, p = (k + j)%nat /\ nth_error index j = Some d.
Proof.
  revert k; induction index as [|x index IH]; intros k; simpl.
  - split; [contradiction | intros (j & _ & Hj); destruct j; discriminate].
  - destruct (Z.eqb_spec x d) as [-> | Hne]; simpl; rewrite IH; split.
    + intros [<- | (j & -> & Hj)].
      * exists 0%nat. split; [lia | reflexivity].
      * exists (S j). split; [lia | exact Hj].
    + intros ([|j] & -> & Hj).
      * left. lia.
      * right. exists j. split; [lia | exact Hj].
    + intros (j & -> & Hj). exists (S j). split; [lia | exact Hj].
    + intros ([|j] & -> & Hj); simpl in Hj.
      * congruence.
      * exists j. split; [lia | exact Hj].
Qed.

Lemma get_loc_inv (index : list Z) (d : Z) (i : nat) :
  get_loc index d = Ok i ->
  nth_error index i = Some d /\ forall j, nth_error index j = Some d -> j = i.
Proof.
  unfold get_loc. intros H.
  pose proof (positions_from_In 0 d index) as Hin.
  destruct (positions_from 0 d index) as [|p [|p' ps]]; try discriminate.
  injection H as ->. split.
  - destruct (proj1 (Hin i) (or_introl eq_refl)) as (j & -> & Hj). exact Hj.
  - intros j Hj.
    assert (In j [i]) as [<- | []] by (apply Hin; exists j; split; [reflexivity | exact Hj]).
    reflexivity.
Qed.

Lemma loc_inv {A} (index : list Z) (column : list A) (d : Z) (a d0 : A) (i : nat) :
  get_loc index d = Ok i -> loc index column d = Ok a -> a = nth i column d0.
Proof.
  unfold loc. intros ->. simpl.
  destruct (nth_error column i) eqn:E; [|discriminate].
  intros [= <-]. symmetry. now apply nth_error_nth.
Qed.

(** What a row says about its entry, whatever the series. *)
Lemma signal_of_entry stock hp d sig :
  signal_of stock hp d = Ok sig ->
  exists i, get_loc (map Date stock) d = Ok i
    /\ Signal.Entry_Date sig = d
    /\ Signal.Entry_Price sig = round2 (Fin (close_at stock i))
    /\ Signal.Volume sig = volume_at stock i
    /\ Signal.Volume_Ratio sig = round2 (volume_ratio_at stock i)
    /\ Signal.Daily_Return sig = format_pct1 (daily_return_at stock i).
Proof.
  unfold signal_of. intros H.
  destruct (loc (map Date stock) (map Close stock) d) as [c|] eqn:Ec; [|discriminate].
  cbn [rbind] in H.
  destruct (get_loc (map Date stock) d) as [i|] eqn:Ei; [|discriminate].
  cbn [rbind] in H.
  destruct (getitem _ _) as [fd|]; [|discriminate]. cbn [rbind] in H.
  destruct (loc (map Date stock) (map Close stock) fd) as [x|]; [|discriminate].
  cbn [rbind] in H.
  destruct (loc (map Date stock) (map Volume stock) d) as [v|] eqn:Ev; [|discriminate].
  cbn [rbind] in H.
  destruct (loc (map Date stock) (Volume_Ratio stock) d) as [vr|] eqn:Evr; [|discriminate].
  cbn [rbind] in H.
  destruct (loc (map Date stock) (Daily_Return stock) d) as [dr|] eqn:Edr; [|discriminate].
  cbn [rbind] in H. injection H as <-.
  exists i. cbn [Signal.Entry_Date Signal.Entry_Price Signal.Volume
                 Signal.Volume_Ratio Signal.Daily_Return].
  rewrite (loc_inv _ _ _ _ 0%Q _ Ei Ec), (loc_inv _ _ _ _ 0 _ Ei Ev),
    (loc_inv _ _ _ _ NaN _ Ei Evr), (loc_inv _ _ _ _ NaN _ Ei Edr).
  repeat split; reflexivity.
Qed.

Lemma tables_summary start end_ vt pt hp df avg pressed :
  tables (summary start end_ vt pt hp df avg pressed) = df.
Proof.
  unfold summary, tables. destruct pressed; cbn [flat_map app]; now rewrite app_nil_r.
Qed.

(** The rows on the page are rows that the loop made. *)
Lemma reported_signals_inv env ticker start end_ vt pt hp sig :
  In sig (reported_signals (analyze_breakouts env ticker start end_ vt pt hp)) ->
  exists results,
    for_each (signal_of (fetched env ticker start end_) hp)
             (breakouts (fetched env ticker start end_) start vt pt) = Ok results
    /\ In sig results.
Proof.
  unfold reported_signals, emitted, analyze_breakouts, bind, yf_download, lift, fresh.
  cbn [page fetches].
  fold (fetched env ticker start end_).
  destruct (for_each _ _) as [results|e]; [|intros []].
  destruct results as [|r rs]; [intros [] |].
  generalize (r :: rs) as df. intros df.
  destruct (avg_return_of df) as [avg|e]; [|intros []].
  intros H. exists df. split; [reflexivity |].
  rewrite <- (tables_summary start end_ vt pt hp df avg (download_pressed env)).
  unfold summary.
  destruct (download_pressed env); exact H.
Qed.

(** Every row on the page is the row of a qualifying position, and its
    label occurs once in the series. *)
Lemma reported_signal_qualifies env ticker start end_ vt pt hp sig :
  In sig (reported_signals (analyze_breakouts env ticker start end_ vt pt hp)) ->
  let stock := fetched env ticker start end_ in
  exists i,
    qualifies stock start vt pt i = true
    /\ get_loc (map Date stock) (date_at stock i) = Ok i
    /\ signal_of stock hp (date_at stock i) = Ok sig.
Proof.
  intros H stock.
  destruct (reported_signals_inv _ _ _ _ _ _ _ _ H) as (results & Hfor & Hin).
  fold stock in Hfor.
  destruct (for_each_In _ _ _ _ Hfor Hin) as (d & Hd & Hsig).
  rewrite breakouts_qualifying in Hd. apply in_map_iff in Hd.
  destruct Hd as (j & <- & Hj). apply in_qualifying in Hj.
  destruct (signal_of_entry _ _ _ _ Hsig) as (i & Hloc & _).
  destruct (get_loc_inv _ _ _ Hloc) as [_ Huniq].
  assert (j = i) as <-.
  { apply Huniq. apply nth_error_nth_lt. rewrite length_map.
    eapply qualifies_lt; eassumption. }
  exists j. auto.
Qed.

(** * Properties of a run *)

Lemma fgt_not_feq (x : float) (t : Q) : fgt x (Fin t) = true -> ~ feq x (Fin t).
Proof.
  destruct x as [a| | |]; simpl; intros H Heq; try contradiction.
  apply Qlt_bool_iff in H. rewrite Heq in H.
  exact (Qlt_irrefl _ H).
Qed.

Lemma date_at_In stock i :
  (i < List.length stock)%nat -> exists b, In b stock /\ Date b = date_at stock i.
Proof.
  intros Hi. exists (nth i stock {| Date := 0; Close := 0; Volume := 0 |}). split.
  - now apply nth_In.
  - unfold date_at. symmetry.
    now apply (nth_map_lt Date stock i {| Date := 0; Close := 0; Volume := 0 |} 0).
Qed.

Lemma requested_analyze_breakouts env ticker start end_ vt pt hp :
  requested (analyze_breakouts env ticker start end_ vt pt hp)
  = [(ticker, start - 40, end_)].
Proof.
  unfold requested, analyze_breakouts, bind, yf_download, lift, fresh.
  cbn [page fetches].
  destruct (for_each _ _) as [results|e]; [|reflexivity].
  destruct results as [|r rs]; [reflexivity |].
  generalize (r :: rs) as df. intros df.
  destruct (avg_return_of df) as [avg|e]; [|reflexivity].
  destruct (download_pressed env); reflexivity.
Qed.

(** C7.  The one request that a run sends to the provider starts 40
    calendar days before [start_date], and no event shown has an entry
    date before [start_date]. *)
Theorem C7_fetch_start_and_buffer env ticker start_date end_date volume_threshold
    price_threshold holding_period :
  requested (analyze_breakouts env ticker start_date end_date volume_threshold
                               price_threshold holding_period)
  = [(ticker, start_date - 40, end_date)]
  /\ forall sig,
      In sig (reported_signals
                (analyze_breakouts env ticker start_date end_date volume_threshold
                                   price_threshold holding_period)) ->
      start_date <= Signal.Entry_Date sig.
Proof.
  split.
  - apply requested_analyze_breakouts.
  - intros sig H.
    destruct (reported_signal_qualifies _ _ _ _ _ _ _ _ H) as (i & Hq & _ & Hsig).
    destruct (signal_of_entry _ _ _ _ Hsig) as (_ & _ & Hd & _).
    rewrite Hd.
    rewrite (qualifies_spec _ _ _ _ _ (qualifies_lt _ _ _ _ _ Hq)) in Hq.
    apply andb_true_iff in Hq as [Hq _]. apply andb_true_iff in Hq as [Hs _].
    now apply Z.leb_le.
Qed.

Lemma C7_fetch_start_and_buffer_witness :
  let run := analyze_breakouts (market sample false) "T" 120 130 2 (2 # 100) 1 in
  requested run = [("T"%string, 80, 130)]
  /\ In (signal_at sample 1 20) (reported_signals run)
  /\ 120 <= Signal.Entry_Date (signal_at sample 1 20).
Proof.
  intros run.
  destruct (C7_fetch_start_and_buffer (market sample false) "T"%string 120 130 2
                                      (2 # 100) 1) as [Hreq Hev].
  assert (In (signal_at sample 1 20) (reported_signals run)) as Hin
      by (vm_compute; left; reflexivity).
  split; [exact Hreq |]. split; [exact Hin | exact (Hev _ Hin)].
Defined.






(** ** Runs do not read the page *)

Lemma extend_extend w p f p' f' :
  extend (extend w p f) p' f' = extend w (p ++ p') (f ++ f').
Proof.
  unfold extend; cbn [page fetches]. now rewrite !app_assoc.
Qed.

Lemma framed_ret {A} (a : A) : framed (ret a).
Proof.
  intros w. unfold ret, extend; cbn. rewrite !app_nil_r. now destruct w.
Qed.

Lemma framed_lift {A} (r : result A) : framed (lift r).
Proof.
  intros w. unfold lift, extend; cbn. rewrite !app_nil_r. now destruct w.
Qed.

Lemma framed_st (e : element) : framed (st e).
Proof.
  intros w. unfold st, extend; cbn. now rewrite app_nil_r.
Qed.

Lemma framed_yf_download env ticker start end_ :
  framed (yf_download env ticker start end_).
Proof.
  intros w. unfold yf_download, extend; cbn. now rewrite app_nil_r.
Qed.

Lemma framed_bind {A B} (m : M A) (k : A -> M B) :
  framed m -> (forall a, framed (k a)) -> framed (bind m k).
Proof.
  intros Hm Hk w. unfold bind. rewrite (Hm w).
  destruct (m fresh) as [wm [a|e]]; cbn [fst snd].
  - rewrite (Hk a (extend w _ _)), (Hk a wm), extend_extend.
    destruct wm as [pm fm]. reflexivity.
  - reflexivity.
Qed.

Lemma framed_analyze_breakouts env ticker start end_ vt pt hp :
  framed (analyze_breakouts env ticker start end_ vt pt hp).
Proof.
  unfold analyze_breakouts.
  apply framed_bind; [apply framed_yf_download | intros stock].
  apply framed_bind; [apply framed_lift | intros results].
  destruct results as [|r rs]; [apply framed_st |].
  apply framed_bind; [apply framed_lift | intros avg].
  repeat (apply framed_bind; [apply framed_st | intros _]).
  destruct (download_pressed env); [apply framed_st | apply framed_ret].
Qed.

Lemma framed_main env s : framed (main env s).
Proof.
  unfold main.
  repeat (apply framed_bind; [apply framed_st | intros _]).
  destruct (run_pressed s); [|apply framed_ret].
  destruct (_ <=? _); [apply framed_st | apply framed_analyze_breakouts].
Qed.

(** ** Runs without an event *)

Lemma analyze_breakouts_none env ticker start end_ vt pt hp :
  qualifying (fetched env ticker start end_) start vt pt = [] ->
  emitted (analyze_breakouts env ticker start end_ vt pt hp) = [no_signals ticker]
  /\ outcome (analyze_breakouts env ticker start end_ vt pt hp) = Ok tt.
Proof.
  intros Hq.
  unfold emitted, outcome, analyze_breakouts, bind, yf_download, lift, fresh.
  cbn [page fetches]. fold (fetched env ticker start end_).
  rewrite breakouts_qualifying, Hq. split; reflexivity.
Qed.




(** ** The warm-up of the rolling mean *)

Lemma ma_volume_at_spec stock i :
  (i < List.length stock)%nat ->
  ma_volume_at stock i
  = if (S i <? 20)%nat then NaN
    else fin (inject_Z (sumZ (firstn 20 (skipn (S i - 20) (map Volume stock))))
              / inject_Z (Z.of_nat 20)).
Proof.
  intros Hi. unfold ma_volume_at, MA20_Volume, rolling_mean.
  rewrite length_map.
  rewrite (nth_map_lt _ (seq 0 (List.length stock)) i 0%nat NaN)
    by (now rewrite length_seq).
  rewrite seq_nth by exact Hi. reflexivity.
Qed.

Lemma volume_ratio_at_spec stock i :
  (i < List.length stock)%nat ->
  volume_ratio_at stock i
  = fdiv (Fin (inject_Z (volume_at stock i))) (ma_volume_at stock i).
Proof.
  intros Hi. unfold volume_ratio_at, Volume_Ratio, series_div, volume_at, ma_volume_at.
  rewrite (nth_map_lt _ (combine (map Volume stock) (MA20_Volume stock)) i (0, NaN) NaN).
  - rewrite combine_nth by (now rewrite length_map, length_MA20_Volume).
    reflexivity.
  - rewrite length_combine, length_map, length_MA20_Volume. lia.
Qed.

Lemma fdiv_NaN_r (x : float) : fdiv x NaN = NaN.
Proof. destruct x; reflexivity. Qed.

Lemma qualifies_warm_up stock start vt pt i :
  (i < 19)%nat -> qualifies stock start vt pt i = false.
Proof.
  intros Hi.
  destruct (Nat.lt_ge_cases i (List.length stock)) as [Hlt | Hge].
  - rewrite (qualifies_spec _ _ _ _ _ Hlt), (volume_ratio_at_spec _ _ Hlt),
      (ma_volume_at_spec _ _ Hlt).
    replace (S i <? 20)%nat with true by (symmetry; apply Nat.ltb_lt; lia).
    rewrite fdiv_NaN_r. cbn [fgt]. now rewrite andb_false_r.
  - unfold qualifies. apply nth_overflow. now rewrite length_breakout_mask.
Qed.

Lemma qualifying_short stock start vt pt :
  (List.length stock < 20)%nat -> qualifying stock start vt pt = [].
Proof.
  intros Hlen.
  destruct (qualifying stock start vt pt) as [|i qs] eqn:E; [reflexivity |].
  assert (In i (qualifying stock start vt pt)) as Hin by (rewrite E; now left).
  apply in_qualifying in Hin.
  pose proof (qualifies_lt _ _ _ _ _ Hin).
  rewrite qualifies_warm_up in Hin by lia. discriminate.
Qed.

(** C4, as amended.  When the provider returns nothing, or fewer than the
    twenty bars of one window, a run shows the message of line 57, the one
    it shows whenever no bar qualifies, and neither a table nor a summary;
    it raises nothing. *)
Theorem C4_short_series env ticker start_date end_date volume_threshold
    price_threshold holding_period :
  let run := analyze_breakouts env ticker start_date end_date volume_threshold
                               price_threshold holding_period in
  (List.length (fetched env ticker start_date end_date) < 20)%nat ->
  emitted run = [no_signals ticker]
  /\ reported_signals run = []
  /\ outcome run = Ok tt.
Proof.
  intros run Hlen.
  destruct (analyze_breakouts_none env ticker start_date end_date volume_threshold
              price_threshold holding_period
              (qualifying_short _ _ _ _ Hlen)) as [He Ho].
  unfold reported_signals. fold run in He, Ho. rewrite He.
  repeat split; auto.
Qed.

Lemma C4_short_series_witness :
  let run := analyze_breakouts (market [] false) "T" 120 150 2 (2 # 100) 10 in
  emitted run = [no_signals "T"]
  /\ reported_signals run = []
  /\ outcome run = Ok tt.
Proof.
  apply (C4_short_series (market [] false) "T"%string 120 150 2 (2 # 100) 10).
  vm_compute. lia.
Defined.

(** C4 as stated fails.  With only five bars before [start_date] a run
    goes on and shows two events; and when the provider returns nothing, the
    page is the page of a run on sixty quiet days, with no condition of its
    own for the missing data. *)
Lemma C4_proceeds_on_short_warm_up :
  List.length (filter (fun b => Date b <? 105) (fetched (market sample false) "T" 105 130))
  = 5%nat
  /\ reported_signals (analyze_breakouts (market sample false) "T" 105 130 2 (2 # 100) 1)
     = [signal_at sample 1 20; signal_at sample 1 23]
  /\ emitted (analyze_breakouts (market [] false) "T" 120 150 2 (2 # 100) 10)
     = emitted (analyze_breakouts (market quiet false) "T" 120 150 2 (2 # 100) 10).
Proof.
  repeat split; vm_compute; reflexivity.
Qed.

(** ** A window without volume *)










(** ** Positive closes *)

Lemma close_at_positive stock i :
  positive_closes stock -> (i < List.length stock)%nat -> (0 < close_at stock i)%Q.
Proof.
  intros Hpos Hi. unfold close_at.
  rewrite (nth_map_lt Close stock i {| Date := 0; Close := 0; Volume := 0 |} 0%Q Hi).
  apply Hpos. now apply nth_In.
Qed.

(** ** The checks of [main] *)




(** * Further properties *)

(** ** The first bars of the series *)

(** X3.  Every event shown is the row of a bar that has nineteen bars
    before it in the fetched series: a bar without a full window of twenty
    volumes is never an event, whatever the thresholds. *)
Theorem X3_events_have_full_window env ticker start_date end_date volume_threshold
    price_threshold holding_period sig :
  let stock := fetched env ticker start_date end_date in
  In sig (reported_signals
            (analyze_breakouts env ticker start_date end_date volume_threshold
                               price_threshold holding_period)) ->
  exists i,
    (19 <= i < List.length stock)%nat
    /\ Signal.Entry_Date sig = date_at stock i
    /\ ma_volume_at stock i <> NaN.
Proof.
  intros stock H.
  destruct (reported_signal_qualifies _ _ _ _ _ _ _ _ H) as (i & Hq & _ & Hsig).
  fold stock in Hq, Hsig.
  pose proof (qualifies_lt _ _ _ _ _ Hq) as Hi.
  destruct (signal_of_entry _ _ _ _ Hsig) as (_ & _ & Hd & _).
  assert (19 <= i)%nat as Hwin.
  { destruct (Nat.lt_ge_cases i 19) as [Hlt | Hge]; [|exact Hge].
    rewrite qualifies_warm_up in Hq by exact Hlt. discriminate. }
  exists i. split; [lia |]. split; [exact Hd |].
  rewrite (ma_volume_at_spec _ _ Hi).
  replace (S i <? 20)%nat with false by (symmetry; apply Nat.ltb_ge; lia).
  discriminate.
Qed.

Lemma X3_events_have_full_window_witness :
  let stock := fetched (market sample false) "T" 105 130 in
  In (signal_at sample 1 20)
     (reported_signals (analyze_breakouts (market sample false) "T" 105 130 2 (2 # 100) 1))
  /\ exists i,
      (19 <= i < List.length stock)%nat
      /\ Signal.Entry_Date (signal_at sample 1 20) = date_at stock i
      /\ ma_volume_at stock i <> NaN.
Proof.
  intros stock.
  assert (In (signal_at sample 1 20)
             (reported_signals
                (analyze_breakouts (market sample false) "T" 105 130 2 (2 # 100) 1)))
    as Hin by (vm_compute; left; reflexivity).
  split; [exact Hin |].
  exact (X3_events_have_full_window (market sample false) "T"%string 105 130 2
                                    (2 # 100) 1 (signal_at sample 1 20) Hin).
Defined.

(** ** The order of the rows *)








(** ** The daily return in exact terms *)

Lemma nth_pct_change_from (p : Q) (xs : list Q) (j : nat) :
  (j < List.length xs)%nat ->
  nth j (pct_change_from p xs) NaN
  = fsub (fdiv (Fin (nth j xs 0%Q)) (Fin (nth j (p :: xs) 0%Q))) (Fin 1).
Proof.
  revert p j; induction xs as [|x xs IH]; intros p j Hj; [simpl in Hj; lia |].
  destruct j as [|j]; [reflexivity |].
  cbn [pct_change_from nth]. rewrite IH by (simpl in Hj; lia). reflexivity.
Qed.

Lemma daily_return_at_spec stock j :
  (S j < List.length stock)%nat ->
  daily_return_at stock (S j)
  = fsub (fdiv (Fin (close_at stock (S j))) (Fin (close_at stock j))) (Fin 1).
Proof.
  intros Hj. unfold daily_return_at, Daily_Return, close_at, pct_change.
  assert (S j < List.length (map Close stock))%nat as Hlen by (now rewrite length_map).
  destruct (map Close stock) as [|x xs]; [simpl in Hlen; lia |].
  cbn [nth]. rewrite nth_pct_change_from by (simpl in Hlen; lia).
  reflexivity.
Qed.

Lemma Qlt_div_iff (a b c : Q) : (0 < c)%Q -> (a < b / c <-> a * c < b)%Q.
Proof.
  intros Hc.
  assert (~ c == 0)%Q as Hne by (intros E; rewrite E in Hc; now apply Qlt_irrefl in Hc).
  rewrite <- (Qmult_lt_r a (b / c) c Hc).
  setoid_replace (b / c * c)%Q with b by (field; exact Hne).
  reflexivity.
Qed.

(** The daily return of a bar with positive closes is above the threshold
    exactly when the close is above the previous close by more than that
    fraction of it. *)
Lemma daily_return_above (c p pt : Q) :
  (0 < p)%Q ->
  fgt (fsub (fdiv (Fin c) (Fin p)) (Fin 1)) (Fin pt) = true
  <-> ((1 + pt) * p < c)%Q.
Proof.
  intros Hp. cbn [fdiv].
  destruct (Qeq_bool p 0) eqn:E.
  { apply Qeq_bool_iff in E. rewrite E in Hp. now apply Qlt_irrefl in Hp. }
  unfold fin. cbn [fsub]. unfold fin. cbn [fgt]. rewrite Qlt_bool_iff.
  rewrite !Qred_correct. rewrite <- (Qlt_div_iff (1 + pt) c p Hp).
  split; intros H; lra.
Qed.

(** ** A date that occurs twice *)





(** ** A holding period below zero *)








(** ** [main] and the provider *)

(** X9.  [main] always shows its widgets first.  It sends a request to the
    provider exactly when the button is pressed with a start date before
    the end date, and then the one request of the analysis; when the button
    is not pressed it shows the widgets and nothing else. *)
Theorem X9_main_requests env s :
  (exists rest, emitted (main env s) = form ++ rest)
  /\ requested (main env s)
     = (if run_pressed s && (start_entered s <? end_entered s)
        then [(ticker_entered s, start_entered s - 40, end_entered s)]
        else [])
  /\ (run_pressed s = false ->
      emitted (main env s) = form /\ outcome (main env s) = Ok tt).
Proof.
  unfold emitted, requested, outcome, main, bind, st, fresh.
  cbn [page fetches app].
  destruct (run_pressed s); cbn [andb].
  - destruct (Z.leb_spec (end_entered s) (start_entered s)) as [Hle | Hlt].
    + replace (start_entered s <? end_entered s) with false
        by (symmetry; apply Z.ltb_ge; exact Hle).
      split; [eexists; reflexivity |]. split; [reflexivity | discriminate].
    + replace (start_entered s <? end_entered s) with true
        by (symmetry; apply Z.ltb_lt; exact Hlt).
      pose proof (framed_analyze_breakouts env (ticker_entered s) (start_entered s)
                    (end_entered s) (volume_threshold_entered s)
                    (price_threshold_entered s) (holding_period_entered s)
                    {| page := form; fetches := [] |}) as Hframe.
      unfold form in Hframe. rewrite Hframe.
      cbn [fst snd extend page fetches app]. fold form.
      split; [eexists; reflexivity |]. split; [|discriminate].
      apply requested_analyze_breakouts.
  - split; [exists []; reflexivity |]. split; [reflexivity |].
    intros _. split; reflexivity.
Qed.

Lemma X9_main_requests_witness :
  (exists rest, emitted (main (market sample false) idle) = form ++ rest)
  /\ requested (main (market sample false) idle) = []
  /\ emitted (main (market sample false) idle) = form
  /\ outcome (main (market sample false) idle) = Ok tt.
Proof.
  destruct (X9_main_requests (market sample false) idle) as (Hform & Hreq & Hidle).
  split; [exact Hform |]. split; [exact Hreq |]. exact (Hidle eq_refl).
Defined.

(** ** [validate_input] *)

Lemma app_one_neq {A} (l : list A) (a : A) : l ++ [a] <> l.
Proof.
  intros H. apply (f_equal (@List.length A)) in H.
  rewrite length_app in H. simpl in H. lia.
Qed.

Lemma validate_input_rejected py user_input input_type validation_fn w e :
  validated py user_input input_type validation_fn = Raise e ->
  e = ValueError \/ e = TypeError ->
  validate_input py user_input input_type validation_fn w
  = (extend w [invalid_input] [], Ok VNone).
Proof.
  intros Hv He. unfold validate_input. rewrite Hv.
  unfold bind, st, ret, extend, invalid_input. cbn [page fetches].
  rewrite app_nil_r. destruct He as [-> | ->]; reflexivity.
Qed.

Lemma validated_Ok py user_input input_type validation_fn v :
  validated py user_input input_type validation_fn = Ok v
  <-> convert py user_input input_type = Ok v /\ accepts validation_fn v.
Proof.
  unfold validated, accepts.
  destruct (convert py user_input input_type) as [x|e]; cbn [rbind].
  - destruct validation_fn as [fn|].
    + destruct (fn x) as [[|]|e] eqn:Efn; cbn [rbind]; split.
      * intros [= <-]. auto.
      * intros [[= <-] _]. reflexivity.
      * discriminate.
      * intros [[= <-] H]. congruence.
      * discriminate.
      * intros [[= <-] H]. congruence.
    + split; [intros [= <-]; auto | intros [[= <-] _]; reflexivity].
  - split; [discriminate | intros [H _]; discriminate].
Qed.

(** X10.  [validate_input] returns a value and shows nothing exactly when
    the conversion that [input_type] asks for gives that value and the
    validation function, if there is one, returns true on it. *)
Theorem X10_validate_input_accepts py user_input input_type validation_fn w v :
  validate_input py user_input input_type validation_fn w = (w, Ok v)
  <-> convert py user_input input_type = Ok v /\ accepts validation_fn v.
Proof.
  rewrite <- validated_Ok. unfold validate_input.
  destruct (validated py user_input input_type validation_fn) as [x|e] eqn:Ev.
  - unfold ret. split; [intros [= <-] | intros [= <-]]; reflexivity.
  - split; [|discriminate].
    destruct e; unfold bind, st, ret, lift; cbn [page fetches]; intros H;
      try discriminate H;
      injection H as Hw _; apply (f_equal page) in Hw; cbn [page] in Hw;
      now apply app_one_neq in Hw.
Qed.

Lemma X10_validate_input_accepts_witness :
  validate_input readers (VStr "-12.5") "float" None fresh
  = (fresh, Ok (VFloat (Fin (- (25 # 2)))))
  /\ convert readers (VStr "-12.5") "float" = Ok (VFloat (Fin (- (25 # 2))))
  /\ accepts None (VFloat (Fin (- (25 # 2)))).
Proof.
  assert (convert readers (VStr "-12.5") "float" = Ok (VFloat (Fin (- (25 # 2))))
          /\ accepts None (VFloat (Fin (- (25 # 2))))) as H
      by (split; vm_compute; auto).
  split; [|exact H].
  exact (proj2 (X10_validate_input_accepts readers (VStr "-12.5") "float"%string None
                  fresh (VFloat (Fin (- (25 # 2))))) H).
Defined.

(** X11.  [validate_input] never raises a ValueError or a TypeError, and
    shows at most its one message: it returns a value and shows nothing, or
    it shows the message and returns [None], or it lets through another
    exception, of the conversion or of the validation function, and shows
    nothing. *)
Theorem X11_validate_input_outcomes py user_input input_type validation_fn w :
  let run := validate_input py user_input input_type validation_fn w in
  (exists v, run = (w, Ok v))
  \/ run = (extend w [invalid_input] [], Ok VNone)
  \/ (exists e, e <> ValueError /\ e <> TypeError /\ run = (w, Raise e)
                /\ validated py user_input input_type validation_fn = Raise e).
Proof.
  intros run. unfold run.
  destruct (validated py user_input input_type validation_fn) as [x|e] eqn:Ev.
  - left. exists x. unfold validate_input. now rewrite Ev.
  - destruct e;
      try (right; left; eapply validate_input_rejected; eauto; fail);
      right; right;
      lazymatch type of Ev with _ = Raise ?x => exists x end;
      unfold validate_input; rewrite Ev;
      (split; [discriminate |]); (split; [discriminate |]); split; reflexivity.
Qed.

(** X12.  [validate_input] shows its message and returns [None] exactly
    when the conversion raises a ValueError or a TypeError, or the
    validation function rejects the converted value or raises one of the
    two; a value that converts well is still refused when the function says
    no. *)
Theorem X12_validate_input_rejects py user_input input_type validation_fn w :
  validate_input py user_input input_type validation_fn w
  = (extend w [invalid_input] [], Ok VNone)
  <-> (convert py user_input input_type = Raise ValueError
       \/ convert py user_input input_type = Raise TypeError
       \/ exists x fn,
           convert py user_input input_type = Ok x /\ validation_fn = Some fn
           /\ (fn x = Ok false \/ fn x = Raise ValueError \/ fn x = Raise TypeError)).
Proof.
  assert (forall r r' : result value, (extend w [invalid_input] [], r) <> (w, r'))
    as Hpage.
  { intros r r' H. injection H as Hw _. apply (f_equal page) in Hw.
    unfold extend in Hw. cbn [page] in Hw. now apply app_one_neq in Hw. }
  split.
  - intros H. unfold validate_input, validated in H.
    destruct (convert py user_input input_type) as [x|e] eqn:Ec; cbn [rbind] in H.
    + destruct validation_fn as [fn|].
      * right; right. exists x, fn. split; [reflexivity |]. split; [reflexivity |].
        destruct (fn x) as [[|]|e] eqn:Efn; cbn [rbind] in H.
        -- unfold ret in H. symmetry in H. now apply Hpage in H.
        -- now left.
        -- destruct e; auto; unfold lift in H; discriminate H.
      * unfold ret in H. symmetry in H. now apply Hpage in H.
    + destruct e; auto; unfold lift in H; discriminate H.
  - intros [Hc | [Hc | (x & fn & Hc & -> & Hfn)]].
    + apply (validate_input_rejected _ _ _ _ _ ValueError); [|now left].
      unfold validated. now rewrite Hc.
    + apply (validate_input_rejected _ _ _ _ _ TypeError); [|now right].
      unfold validated. now rewrite Hc.
    + destruct Hfn as [Hfn | [Hfn | Hfn]].
      * apply (validate_input_rejected _ _ _ _ _ ValueError); [|now left].
        unfold validated. rewrite Hc. cbn [rbind]. now rewrite Hfn.
      * apply (validate_input_rejected _ _ _ _ _ ValueError); [|now left].
        unfold validated. rewrite Hc. cbn [rbind]. now rewrite Hfn.
      * apply (validate_input_rejected _ _ _ _ _ TypeError); [|now right].
        unfold validated. rewrite Hc. cbn [rbind]. now rewrite Hfn.
Qed.

Lemma X12_validate_input_rejects_witness :
  convert readers (VStr "-12.5") "float" = Ok (VFloat (Fin (- (25 # 2))))
  /\ positive_float (VFloat (Fin (- (25 # 2)))) = Ok false
  /\ validate_input readers (VStr "-12.5") "float" (Some positive_float) fresh
     = (extend fresh [invalid_input] [], Ok VNone).
Proof.
  assert (convert readers (VStr "-12.5") "float" = Ok (VFloat (Fin (- (25 # 2)))))
    as Hc by (vm_compute; reflexivity).
  assert (positive_float (VFloat (Fin (- (25 # 2)))) = Ok false) as Hf
      by (vm_compute; reflexivity).
  split; [exact Hc |]. split; [exact Hf |].
  apply (proj2 (X12_validate_input_rejects readers (VStr "-12.5") "float"%string
                  (Some positive_float) fresh)).
  right; right. exists (VFloat (Fin (- (25 # 2)))), positive_float. auto.
Defined.

(** ** A price that does not rise *)

Lemma daily_return_at_first stock : daily_return_at stock 0 = NaN.
Proof.
  unfold daily_return_at, Daily_Return, pct_change.
  destruct (map Close stock); reflexivity.
Qed.

(** X13.  With positive closes that never rise from one bar to the next
    and a price threshold that is not negative, no bar qualifies, whatever
    the volumes: the run shows the message of line 57 and nothing else. *)
Theorem X13_no_rise_no_signal env ticker start_date end_date volume_threshold
    price_threshold holding_period :
  let stock := fetched env ticker start_date end_date in
  let run := analyze_breakouts env ticker start_date end_date volume_threshold
                               price_threshold holding_period in
  positive_closes stock ->
  (forall j, (S j < List.length stock)%nat ->
             (close_at stock (S j) <= close_at stock j)%Q) ->
  (0 <= price_threshold)%Q ->
  emitted run = [no_signals ticker] /\ outcome run = Ok tt.
Proof.
  intros stock run Hpos Hflat Hpt.
  apply analyze_breakouts_none. fold stock.
  destruct (qualifying stock start_date volume_threshold price_threshold)
    as [|i qs] eqn:E; [reflexivity | exfalso].
  assert (In i (qualifying stock start_date volume_threshold price_threshold)) as Hin
      by (rewrite E; now left).
  apply in_qualifying in Hin.
  pose proof (qualifies_lt _ _ _ _ _ Hin) as Hi.
  rewrite (qualifies_spec _ _ _ _ _ Hi) in Hin.
  apply andb_true_iff in Hin as [_ Hd].
  destruct i as [|j]; [rewrite daily_return_at_first in Hd; discriminate |].
  rewrite (daily_return_at_spec _ _ Hi) in Hd.
  assert (0 < close_at stock j)%Q as Hp by (apply close_at_positive; [exact Hpos | lia]).
  apply (daily_return_above _ _ _ Hp) in Hd.
  specialize (Hflat j Hi).
  assert (0 <= price_threshold * close_at stock j)%Q as Hprod
      by (apply Qmult_le_0_compat; [exact Hpt | now apply Qlt_le_weak]).
  setoid_replace ((1 + price_threshold) * close_at stock j)%Q
    with (close_at stock j + price_threshold * close_at stock j)%Q in Hd by ring.
  revert Hd Hflat Hprod.
  generalize (price_threshold * close_at stock j)%Q as x,
             (close_at stock j) as p, (close_at stock (S j)) as c.
  intros x p c Hd Hflat Hprod. lra.
Qed.

Lemma positive_closes_quiet : positive_closes (fetched (market quiet false) "T" 120 150).
Proof.
  intros b Hb. vm_compute in Hb.
  repeat (destruct Hb as [<- | Hb]; [vm_compute; reflexivity |]). contradiction.
Defined.

Lemma X13_no_rise_no_signal_witness :
  let run := analyze_breakouts (market quiet false) "T" 120 150 2 (2 # 100) 10 in
  emitted run = [no_signals "T"] /\ outcome run = Ok tt.
Proof.
  apply (X13_no_rise_no_signal (market quiet false) "T"%string 120 150 2 (2 # 100) 10).
  - exact positive_closes_quiet.
  - intros j Hj. vm_compute in Hj.
    assert (j < 49)%nat as Hlt by lia. clear Hj.
    do 49 (destruct j as [|j]; [vm_compute; discriminate |]). lia.
  - vm_compute. discriminate.
Defined.

(** * The run on binary64 numbers *)

Section OnBinary64.

Import Floats.
Import Binary64.
#[local] Set Warnings "-inexact-float".

(** ** Comparisons and zero *)



Lemma is_price_finite (c : float) :
  is_price c = true -> exists m e, Prim2SF c = S754_finite false m e.
Proof.
  unfold is_price. rewrite andb_true_iff, !ltb_spec. unfold SFltb.
  change (Prim2SF 0) with (S754_zero false).
  change (Prim2SF infinity) with (S754_infinity false).
  destruct (Prim2SF c) as [s|s| |s m e]; simpl.
  - intros [H _]; discriminate.
  - destruct s; intros [H1 H2]; discriminate.
  - intros [H _]; discriminate.
  - destruct s; intros [H1 H2]; try discriminate. eauto.
Qed.

(** A price compared with itself has return zero. *)
Lemma no_move_no_return (c : float) :
  is_price c = true -> ((c - c) / c)%float = zero.
Proof.
  intros H. destruct (is_price_finite c H) as (m & e & Hc).
  apply Prim2SF_inj. rewrite div_spec, sub_spec, Hc.
  unfold SF64div, SF64sub, SFsub.
  rewrite Z.min_id, Z.sub_diag. reflexivity.
Qed.

(** Adding zero to a sum does not change what the reduction returns. *)
Lemma add_zero_absorbed (y : float) :
  (zero + (y + zero))%float = (zero + y)%float.
Proof.
  apply Prim2SF_inj. rewrite !add_spec.
  change (Prim2SF zero) with (S754_zero false).
  destruct (Prim2SF y) as [s|s| |s m e]; try reflexivity.
  destruct s; reflexivity.
Qed.

Lemma nearest_Qeq (p q : Q) : (p == q)%Q -> nearest p = nearest q.
Proof.
  intros H. unfold nearest. now rewrite (Qred_complete p q H).
Qed.

(** ** The numbers of Python and numpy *)

(** Reading a decimal with one digit after the point gives the float that
    IEEE division gives for the tenths, as it must: both are correctly
    rounded.  Here for all tenths up to 300.0, and for some fractions with
    other denominators. *)
Example nearest_is_division :
  forallb (fun n => (nearest (Z.of_nat n # 10) =? of_int (Z.of_nat n) / 10)%float)
          (seq 0 3001) = true
  /\ forallb (fun n => (nearest (Z.of_nat n * 7919 + 13 # 1000003)
                        =? of_int (Z.of_nat n * 7919 + 13) / 1000003)%float)
             (seq 0 1000) = true.
Proof.
  split; vm_compute; reflexivity.
Qed.

(** Some roundings that exact fractions would get wrong.  [round(8.345, 2)]
    of numpy is 8.35, since the product by 100 lies above 834.5; 1.45% is
    shown as [1.5%] and the number 1.45 as [1.4]; the mean of 0.3 and 0.4
    lies below 0.35 and shows as [0.3]; a rise from 100 to 102 is above
    the 0.02 that was entered; and 0.07 times 100 is not 7. *)
Example rounding_in_binary64 :
  round2 8.345 = 8.35%float
  /\ format_pct1 0.0145 = "1.5%"%string
  /\ format_1f 1.45 = "1.4"%string
  /\ format_1f (mean [0.3; 0.4]%float) = "0.3"%string
  /\ (0.02 <? 102 / 100 - 1)%float = true
  /\ format_pct1 (102 / 100 - 1) = "2.0%"%string
  /\ (0.07 * 100 =? 7)%float = false
  /\ format_pct1 (-0.0004) = "-0.0%"%string
  /\ parse_float "-0.0" = Some neg_zero.
Proof.
  repeat split; vm_compute; reflexivity.
Qed.

(** ** Formatting a percentage and reading it back *)

Lemma round_half_even_nonneg (q : Q) : (0 <= q)%Q -> 0 <= round_half_even q.
Proof.
  intros H. pose proof (round_half_even_bounds q) as [Hlo _].
  assert (0 <= Qfloor q) by (change 0 with (Qfloor 0); now apply Qfloor_resp_le).
  lia.
Qed.

Lemma pow2_pos (k : Z) : (0 < pow2 k)%Q.
Proof.
  unfold pow2. destruct (0 <=? k) eqn:E.
  - apply Z.leb_le in E. rewrite <- (Zlt_Qlt 0). now apply Z.pow_pos_nonneg.
  - reflexivity.
Qed.

Lemma tenths_nonneg (m : positive) (e : Z) :
  0 <= round_half_even (inject_Z (Zpos m) * pow2 e * 10).
Proof.
  apply round_half_even_nonneg.
  apply Qmult_le_0_compat; [|discriminate].
  apply Qmult_le_0_compat; [discriminate | apply Qlt_le_weak, pow2_pos].
Qed.

Lemma parse_fixed1_sign (neg : bool) (n : Z) :
  0 <= n ->
  parse_float (fixed1 neg n)
  = Some (if neg then (- nearest (n # 10))%float else nearest (n # 10)).
Proof.
  intros Hn. unfold fixed1.
  set (m := Z.abs_N n).
  assert (m mod 10 < 10)%N as Hlt by (apply N.mod_lt; lia).
  pose proof (parse_unsigned_digits (m / 10) (m mod 10) Hlt) as Hp.
  destruct (digits_head (m / 10)) as (c & r & Hd & Hc).
  rewrite Hd in *.
  assert (inject_Z (Z.of_N (m / 10)) + (Z.of_N (m mod 10) # 10) == n # 10)%Q as Hq.
  { rewrite tenths_value. subst m. rewrite N2Z.inj_abs_N, Z.abs_eq by lia.
    reflexivity. }
  apply nearest_Qeq in Hq.
  revert Hp Hq.
  generalize (inject_Z (Z.of_N (m / 10)) + (Z.of_N (m mod 10) # 10))%Q as q.
  generalize (digits (m mod 10)) as t.
  intros t q Hp Hq.
  unfold is_digit in Hc; simpl in Hc.
  unfold parse_float.
  destruct neg;
    repeat (destruct Hc as [<- | Hc];
            [simpl; simpl in Hp; rewrite Hp, Hq; reflexivity |]);
    contradiction.
Qed.

Lemma rstrip_pct_fixed1 (neg : bool) (n : Z) :
  rstrip_pct (fixed1 neg n ++ "%") = fixed1 neg n.
Proof.
  unfold fixed1.
  assert (Z.abs_N n mod 10 < 10)%N as Hlt by (apply N.mod_lt; lia).
  destruct (digits_lt10 _ Hlt) as (c & Hc & Hdig).
  rewrite Hc.
  replace (((if neg then "-" else "") ++ digits (Z.abs_N n / 10) ++ "." ++ String c "") ++ "%")%string
    with (((if neg then "-" else "") ++ digits (Z.abs_N n / 10)) ++ String "." (String c "%"))%string.
  2:{ destruct neg; simpl; rewrite ?string_app_assoc; reflexivity. }
  rewrite (rstrip_pct_fixed _ c Hdig).
  destruct neg; simpl; rewrite ?string_app_assoc; reflexivity.
Qed.

(** Reading back what [format_pct1] wrote gives the percentage rounded to
    one digit; it never fails. *)
Lemma parse_format_pct1_back (x : float) :
  parse_float (rstrip_pct (format_pct1 x)) = Some (round_pct1 x).
Proof.
  unfold format_pct1, format_1f, round_pct1.
  generalize (x * 100)%float as y. intros y.
  pose proof (SF2Prim_Prim2SF y) as Hy.
  destruct (Prim2SF y) as [s|s| |s m e].
  - rewrite rstrip_pct_fixed1. rewrite <- Hy. destruct s; reflexivity.
  - rewrite <- Hy. destruct s; reflexivity.
  - rewrite <- Hy. reflexivity.
  - rewrite rstrip_pct_fixed1. apply parse_fixed1_sign, tenths_nonneg.
Qed.

(** ** Columns *)

Lemma length_pct_change_float (xs : list float) :
  List.length (pct_change xs) = List.length xs.
Proof.
  destruct xs as [|x xs]; simpl; [reflexivity |]. f_equal.
  revert x; induction xs as [|y xs IH]; intros x; simpl; [reflexivity | now rewrite IH].
Qed.

Lemma length_returns (stock : list Bar) :
  List.length (Daily_Return stock) = List.length stock.
Proof.
  unfold Daily_Return. now rewrite length_pct_change_float, length_map.
Qed.

Lemma length_ratios (stock : list Bar) :
  List.length (Volume_Ratio stock) = List.length stock.
Proof.
  unfold Volume_Ratio, series_div, MA20_Volume, rolling_mean.
  rewrite length_map, length_combine, !length_map, length_seq.
  apply Nat.min_id.
Qed.

Lemma length_mask stock start vt pt :
  List.length (breakout_mask stock start vt pt) = List.length stock.
Proof.
  unfold breakout_mask, mask_and.
  rewrite !length_map, !length_combine, !length_map, !length_combine, !length_map.
  rewrite length_ratios, length_returns. lia.
Qed.

(** The labels that the filter keeps are those of the qualifying positions,
    in the order of the series. *)
Lemma breakouts_by_position stock start vt pt :
  breakouts stock start vt pt = map (date_at stock) (qualifying stock start vt pt).
Proof.
  unfold breakouts, qualifying, qualifies, date_at.
  rewrite (self_map_seq (map Date stock) 0) at 1.
  rewrite (self_map_seq (breakout_mask stock start vt pt) false) at 1.
  rewrite length_mask, length_map.
  apply select_map_seq.
Qed.


Lemma qualifies_in_series stock start vt pt i :
  qualifies stock start vt pt i = true -> (i < List.length stock)%nat.
Proof.
  unfold qualifies. intros H.
  destruct (Nat.lt_ge_cases i (List.length stock)) as [Hlt | Hge]; [exact Hlt |].
  rewrite nth_overflow in H by (now rewrite length_mask).
  discriminate.
Qed.

Lemma qualifying_iff stock start vt pt i :
  In i (qualifying stock start vt pt) <-> qualifies stock start vt pt i = true.
Proof.
  unfold qualifying. rewrite filter_In, in_seq. split.
  - tauto.
  - intros H. pose proof (qualifies_in_series _ _ _ _ _ H). split; [lia | exact H].
Qed.

Lemma bar_at stock i :
  (i < List.length stock)%nat ->
  exists b, In b stock /\ Date b = date_at stock i /\ Close b = close_at stock i.
Proof.
  intros Hi. exists (nth i stock {| Date := 0; Close := nan; Volume := 0 |}).
  split; [now apply nth_In |].
  unfold date_at, close_at. split; symmetry; now apply nth_map_lt.
Qed.

(** ** Looking a row up by its label *)

Lemma get_loc_once (index : list Z) (i : nat) (d : Z) :
  NoDup index -> nth_error index i = Some d -> get_loc index d = Ok (At i).
Proof.
  intros Hnd Hi. unfold get_loc.
  now rewrite (positions_from_unique 0 i d index Hnd Hi).
Qed.

Lemma loc_once {A} (index : list Z) (column : list A) (i : nat) (d : Z) (a : A) :
  NoDup index -> nth_error index i = Some d -> nth_error column i = Some a ->
  rbind (loc index column d) number = Ok a.
Proof.
  intros Hnd Hi Ha. unfold loc.
  rewrite (positions_from_unique 0 i d index Hnd Hi). simpl. now rewrite Ha.
Qed.




Lemma exit_index_in_series stock hp i :
  (i < List.length stock)%nat -> 0 <= hp ->
  (exit_index stock hp i < List.length stock)%nat
  /\ Z.of_nat (exit_index stock hp i)
     = Z.min (Z.of_nat i + hp) (Z.of_nat (List.length stock) - 1).
Proof.
  intros Hi Hhp. unfold exit_index. lia.
Qed.

(** With no date twice in the series, the body of the loop finds the rows
    of its event where the positions say. *)
Lemma signal_of_position stock hp i :
  unique_dates stock -> 0 <= hp -> (i < List.length stock)%nat ->
  signal_of stock hp (date_at stock i) = Ok (signal_at stock hp i).
Proof.
  intros Hnd Hhp Hi. unfold unique_dates in Hnd.
  destruct (exit_index_in_series stock hp i Hi Hhp) as [He HeZ].
  assert (forall j, (j < List.length stock)%nat ->
                    nth_error (map Date stock) j = Some (date_at stock j)) as Hdate.
  { intros j Hj. apply nth_error_nth_lt. now rewrite length_map. }
  assert (forall j, (j < List.length stock)%nat ->
                    loc (map Date stock) (map Close stock) (date_at stock j)
                    = Ok (Scalar (close_at stock j))) as Hclose.
  { intros j Hj. unfold loc.
    rewrite (positions_from_unique 0 j _ _ Hnd (Hdate j Hj)). simpl.
    unfold close_at.
    now rewrite (nth_error_nth_lt (map Close stock) j nan) by (now rewrite length_map). }
  unfold signal_of.
  rewrite (Hclose i Hi). cbn [rbind].
  rewrite (get_loc_once _ i _ Hnd (Hdate i Hi)). cbn [rbind future_index].
  rewrite length_map, <- HeZ.
  rewrite (getitem_nat _ _ 0) by (now rewrite length_map). cbn [rbind].
  fold (date_at stock (exit_index stock hp i)).
  rewrite (Hclose _ He). cbn [rbind number].
  rewrite (loc_once _ (map Volume stock) i _ (volume_at stock i) Hnd (Hdate i Hi))
    by (apply nth_error_nth_lt; now rewrite length_map).
  cbn [rbind].
  rewrite (loc_once _ (Volume_Ratio stock) i _ (volume_ratio_at stock i) Hnd (Hdate i Hi))
    by (apply nth_error_nth_lt; now rewrite length_ratios).
  cbn [rbind].
  rewrite (loc_once _ (Daily_Return stock) i _ (daily_return_at stock i) Hnd (Hdate i Hi))
    by (apply nth_error_nth_lt; now rewrite length_returns).
  reflexivity.
Qed.

(** The loop of lines 38 to 54 raises nothing and makes one row per
    qualifying position, in their order. *)
Lemma rows_by_position stock start vt pt hp :
  unique_dates stock -> 0 <= hp ->
  for_each (signal_of stock hp) (breakouts stock start vt pt)
  = Ok (map (signal_at stock hp) (qualifying stock start vt pt)).
Proof.
  intros Hnd Hhp. rewrite breakouts_by_position.
  apply for_each_map. intros i Hi.
  apply qualifying_iff, qualifies_in_series in Hi.
  now apply signal_of_position.
Qed.


(** ** The mean of line 61 *)

Lemma avg_return_rows stock hp (qs : list nat) :
  qs <> [] ->
  avg_return_of (map (signal_at stock hp) qs)
  = Ok (mean (map (fun i => round_pct1 (forward_return_at stock hp i)) qs)).
Proof.
  intros Hne. unfold avg_return_of.
  destruct qs as [|q qs]; [congruence |].
  change (signal_at stock hp q :: map (signal_at stock hp) qs)
    with (map (signal_at stock hp) (q :: qs)).
  cbv beta iota.
  rewrite (for_each_map _ (signal_at stock hp)
             (fun i => round_pct1 (forward_return_at stock hp i))).
  - reflexivity.
  - intros i _. simpl. now rewrite parse_format_pct1_back.
Qed.

Lemma pairwise_sum_short (depth : nat) (xs : list float) :
  (List.length xs < 8)%nat -> pairwise_sum depth xs = add_all zero xs.
Proof.
  intros H. apply Nat.ltb_lt in H.
  destruct depth; simpl; now rewrite H.
Qed.

(** The depth that [np_sum] gives to [pairwise_sum] is enough: no cut is
    left out for want of depth, and more depth changes nothing. *)
Lemma pairwise_sum_depth (d d' : nat) (xs : list float) :
  (List.length xs <= d)%nat -> (List.length xs <= d')%nat ->
  pairwise_sum d xs = pairwise_sum d' xs.
Proof.
  revert d' xs. induction d as [|d IH]; intros d' xs Hd Hd'.
  - destruct xs; [|simpl in Hd; lia]. destruct d'; reflexivity.
  - destruct d' as [|d'].
    + destruct xs; [reflexivity | simpl in Hd'; lia].
    + cbn [pairwise_sum].
      destruct (List.length xs <? 8)%nat eqn:E1; [reflexivity |].
      destruct (List.length xs <=? 128)%nat eqn:E2; [reflexivity |].
      apply Nat.ltb_ge in E1. apply Nat.leb_gt in E2.
      pose proof (Nat.div_mod_eq (List.length xs) 2) as H2.
      pose proof (Nat.mod_upper_bound (List.length xs) 2 ltac:(lia)) as H2'.
      pose proof (Nat.mod_upper_bound (List.length xs / 2) 8 ltac:(lia)) as H8.
      pose proof (Nat.div_mod_eq (List.length xs / 2) 8) as H8'.
      f_equal; apply IH; rewrite ?length_firstn, ?length_skipn; lia.
Qed.

(** In a short column, a zero at the end leaves the sum as it is. *)
Lemma np_sum_zero_last (xs : list float) :
  (List.length xs < 7)%nat -> np_sum (xs ++ [zero]) = np_sum xs.
Proof.
  intros H. unfold np_sum.
  rewrite !pairwise_sum_short by (rewrite ?length_app; simpl; lia).
  unfold add_all. rewrite fold_left_app. simpl.
  apply add_zero_absorbed.
Qed.

Lemma count_zero_last (xs : list float) : count (xs ++ [zero]) = S (count xs).
Proof.
  unfold count. rewrite filter_app, length_app. simpl. lia.
Qed.

Lemma fillna_zero_last (xs : list float) : fillna (xs ++ [zero]) = fillna xs ++ [zero].
Proof.
  unfold fillna. now rewrite map_app.
Qed.

(** ** A whole run *)

(** What a run does, by the outcome of its loop. *)
Lemma run_by_loop env ticker start end_ vt pt hp w :
  let stock := fetched env ticker start end_ in
  let asked := {| page := page w; fetches := fetches w ++ [(ticker, start - 40, end_)] |} in
  analyze_breakouts env ticker start end_ vt pt hp w
  = match for_each (signal_of stock hp) (breakouts stock start vt pt) with
    | Raise e => (asked, Raise e)
    | Ok [] =>
        ({| page := page w ++ [no_signals ticker]; fetches := fetches asked |}, Ok tt)
    | Ok df =>
        match avg_return_of df with
        | Raise e => (asked, Raise e)
        | Ok avg =>
            ({| page := page w ++ summary start end_ vt pt hp df avg;
                fetches := fetches asked |},
             if download_pressed env then Raise (rerun_exception env) else Ok tt)
        end
    end.
Proof.
  intros stock asked.
  unfold analyze_breakouts, bind, yf_download, lift. cbn [page fetches].
  fold (fetched env ticker start end_). fold stock.
  destruct (for_each _ _) as [results|e]; [|reflexivity].
  destruct results as [|r rs]; [reflexivity |].
  generalize (r :: rs) as df. intros df.
  destruct (avg_return_of df) as [avg|e]; [|reflexivity].
  unfold summary, st, ret, experimental_rerun, lift.
  destruct (download_pressed env); cbn [page fetches app];
    repeat rewrite <- app_assoc; reflexivity.
Qed.

Lemma tables_of_summary start end_ vt pt hp df avg :
  tables (summary start end_ vt pt hp df avg) = df.
Proof.
  unfold summary, tables. cbn [flat_map app]. now rewrite app_nil_r.
Qed.

(** A run on a series without a repeated date: the loop raises nothing,
    and the page gets the message of line 57 or the summary of the
    qualifying positions. *)
Lemma emitted_by_position env ticker start end_ vt pt hp :
  let stock := fetched env ticker start end_ in
  let qs := qualifying stock start vt pt in
  unique_dates stock -> 0 <= hp ->
  emitted (analyze_breakouts env ticker start end_ vt pt hp)
  = match qs with
    | [] => [no_signals ticker]
    | _ => summary start end_ vt pt hp (map (signal_at stock hp) qs)
             (mean (map (fun i => round_pct1 (forward_return_at stock hp i)) qs))
    end.
Proof.
  intros stock qs Hnd Hhp. unfold emitted.
  rewrite run_by_loop. fold stock.
  rewrite (rows_by_position stock start vt pt hp Hnd Hhp). fold qs.
  destruct qs as [|q qs'] eqn:Eqs; [reflexivity |].
  change (map (signal_at stock hp) (q :: qs'))
    with (signal_at stock hp q :: map (signal_at stock hp) qs').
  cbv beta iota.
  change (signal_at stock hp q :: map (signal_at stock hp) qs')
    with (map (signal_at stock hp) (q :: qs')).
  rewrite avg_return_rows by discriminate. reflexivity.
Qed.

Lemma reported_by_position env ticker start end_ vt pt hp :
  let stock := fetched env ticker start end_ in
  unique_dates stock -> 0 <= hp ->
  reported_signals (analyze_breakouts env ticker start end_ vt pt hp)
  = map (signal_at stock hp) (qualifying stock start vt pt).
Proof.
  intros stock Hnd Hhp. unfold reported_signals.
  rewrite emitted_by_position by assumption. fold stock.
  destruct (qualifying stock start vt pt) as [|q qs]; [reflexivity |].
  apply tables_of_summary.
Qed.




Lemma market_prices stock pressed ticker start end_ :
  forallb (fun b => is_price (Close b)) stock = true ->
  prices (fetched (market stock pressed) ticker start end_).
Proof.
  intros H b Hb. unfold fetched, market in Hb. cbn [provider] in Hb.
  apply filter_In in Hb as [Hb _].
  rewrite forallb_forall in H. now apply H.
Qed.

Lemma market_volumes stock pressed ticker start end_ :
  forallb (fun b => (0 <=? Volume b) && (Volume b <? 2 ^ 48)) stock = true ->
  volumes (fetched (market stock pressed) ticker start end_).
Proof.
  intros H b Hb. unfold fetched, market in Hb. cbn [provider] in Hb.
  apply filter_In in Hb as [Hb _].
  rewrite forallb_forall in H. specialize (H b Hb).
  apply andb_true_iff in H as [H1 H2].
  apply Z.leb_le in H1. apply Z.ltb_lt in H2. lia.
Qed.

Lemma qualifying_with_last stock start vt pt :
  qualifies stock start vt pt (List.length stock - 1) = true ->
  qualifying stock start vt pt
  = filter (qualifies stock start vt pt) (seq 0 (List.length stock - 1))
    ++ [(List.length stock - 1)%nat].
Proof.
  intros Hq. pose proof (qualifies_in_series _ _ _ _ _ Hq) as Hlt.
  unfold qualifying.
  replace (List.length stock) with (S (List.length stock - 1)) at 1 by lia.
  rewrite seq_S, filter_app. cbn [filter Nat.add]. now rewrite Hq.
Qed.

(** * Properties of a run on binary64 numbers *)



(** The strict inequalities of the filter at work.  In [rise] the close
    goes from 100 to 102: in binary64 the return is a little above the
    0.02 that was entered, and the bar is an event.  In [level] the return
    is 0.5 and the volume ratio is 2, and with these very thresholds the
    bar is no event; just below them it is one. *)
Example thresholds_are_strict :
  (0.02 <? daily_return_at rise 20)%float = true
  /\ (daily_return_at level 20 =? 0.5)%float = true
  /\ (volume_ratio_at level 20 =? 2)%float = true
  /\ emitted (analyze_breakouts (market level false) "T" 120 130 2 0.5 1)
     = [no_signals "T"]
  /\ emitted (analyze_breakouts (market level false) "T" 120 130 1.9 0.5 1)
     = [no_signals "T"]
  /\ emitted (analyze_breakouts (market level false) "T" 120 130 2 0.4 1)
     = [no_signals "T"]
  /\ map Signal.Entry_Date
         (reported_signals (analyze_breakouts (market level false) "T" 120 130 1.9 0.4 1))
     = [120].
Proof.
  repeat split; vm_compute; reflexivity.
Qed.

(** C3, as amended.  On a series of the data model, a run with at
    least one event shows, with one digit after the point, the mean of the
    numbers read back from the formatted forward returns of the rows: each
    is the percentage rounded to one digit.  The forward returns in full
    precision do not enter the mean. *)
Theorem C3_mean_of_rounded_percentages env ticker start_date end_date
    volume_threshold price_threshold holding_period :
  let stock := fetched env ticker start_date end_date in
  let run := analyze_breakouts env ticker start_date end_date volume_threshold
                               price_threshold holding_period in
  let qs := qualifying stock start_date volume_threshold price_threshold in
  let rounded := map (fun i => round_pct1 (forward_return_at stock holding_period i)) qs in
  prices stock -> volumes stock -> unique_dates stock ->
  0 <= holding_period -> qs <> [] ->
  reported_signals run = map (signal_at stock holding_period) qs
  /\ map Signal.Forward_Return (reported_signals run)
     = map (fun i => format_pct1 (forward_return_at stock holding_period i)) qs
  /\ avg_return_of (reported_signals run) = Ok (mean rounded)
  /\ In (write [Lit "Average Forward Return: "; Lit (format_1f (mean rounded)); Lit "%"])
        (emitted run).
Proof.
  intros stock run qs rounded _ _ Hnd Hhp Hne.
  assert (reported_signals run = map (signal_at stock holding_period) qs) as Hrows
      by (apply reported_by_position; assumption).
  split; [exact Hrows |].
  split; [rewrite Hrows, map_map; reflexivity |].
  split; [rewrite Hrows; now apply avg_return_rows |].
  unfold run. rewrite emitted_by_position by assumption.
  fold stock qs rounded.
  destruct qs as [|q qs']; [congruence |].
  unfold summary. right. right. left. reflexivity.
Qed.

Lemma unique_dates_three : unique_dates (fetched (market three false) "T" 120 130).
Proof.
  unfold unique_dates. vm_compute.
  repeat (constructor; [simpl; intuition discriminate |]). constructor.
Qed.

Lemma C3_mean_of_rounded_percentages_witness :
  let stock := fetched (market three false) "T" 120 130 in
  let run := analyze_breakouts (market three false) "T" 120 130 2 0.02 1 in
  let qs := qualifying stock 120 2 0.02 in
  let rounded := map (fun i => round_pct1 (forward_return_at stock 1 i)) qs in
  reported_signals run = map (signal_at stock 1) qs
  /\ map Signal.Forward_Return (reported_signals run)
     = map (fun i => format_pct1 (forward_return_at stock 1 i)) qs
  /\ avg_return_of (reported_signals run) = Ok (mean rounded)
  /\ In (write [Lit "Average Forward Return: "; Lit (format_1f (mean rounded)); Lit "%"])
        (emitted run).
Proof.
  apply (C3_mean_of_rounded_percentages (market three false) "T"%string 120 130 2
                                        0.02 1).
  - apply market_prices. reflexivity.
  - apply market_volumes. reflexivity.
  - exact unique_dates_three.
  - lia.
  - vm_compute. discriminate.
Defined.

(** C3 as stated fails.  The three events of [three] held for one day
    have forward returns 0.24%, 0.24% and 0.34%, of mean 0.27%, which shows
    as 0.3; the page shows 0.2, the mean of the 0.2, 0.2 and 0.3 read back
    from the table. *)
Lemma C3_mean_from_formatted_strings :
  let run := analyze_breakouts (market three false) "T" 120 130 2 0.02 1 in
  let raw := map (forward_return_at three 1) [20; 23; 26]%nat in
  qualifying (fetched (market three false) "T" 120 130) 120 2 0.02 = [20; 23; 26]%nat
  /\ map Signal.Forward_Return (reported_signals run) = ["0.2%"; "0.2%"; "0.3%"]%string
  /\ avg_return_of (reported_signals run) = Ok (mean [0.2; 0.2; 0.3]%float)
  /\ In (write [Lit "Average Forward Return: "; Lit "0.2"; Lit "%"]) (emitted run)
  /\ format_1f (mean raw * 100) = "0.3"%string
  /\ format_pct1 (mean raw) = "0.3%"%string
  /\ (mean [0.2; 0.2; 0.3] =? mean raw * 100)%float = false
  /\ (mean raw * 100 - mean [0.2; 0.2; 0.3] <? 0.03)%float = false.
Proof.
  intros run raw.
  do 3 (split; [vm_compute; reflexivity |]).
  split; [vm_compute; do 2 right; left; reflexivity |].
  do 3 (split; [vm_compute; reflexivity |]).
  vm_compute. reflexivity.
Qed.

(** C10.  On a series of the data model, when
    the last bar qualifies its event is the last row of the table; the exit
    of that row is its entry, its forward return is zero and is shown as
    [0.0%].  The row is counted in the total, and its zero is counted in the
    mean: the sum is taken over the numbers of the rows before it and this
    zero, and is divided by one more than their count.  In a table of up to
    seven rows the zero leaves the sum as it is, and only lowers the mean
    through the count. *)
Theorem C10_last_bar_event env ticker start_date end_date volume_threshold
    price_threshold holding_period :
  let stock := fetched env ticker start_date end_date in
  let run := analyze_breakouts env ticker start_date end_date volume_threshold
                               price_threshold holding_period in
  let last := (List.length stock - 1)%nat in
  let sig := signal_at stock holding_period last in
  let earlier :=
    filter (qualifies stock start_date volume_threshold price_threshold) (seq 0 last) in
  let values :=
    map (fun i => round_pct1 (forward_return_at stock holding_period i)) earlier in
  prices stock -> volumes stock -> unique_dates stock -> 0 <= holding_period ->
  qualifies stock start_date volume_threshold price_threshold last = true ->
  reported_signals run = map (signal_at stock holding_period) earlier ++ [sig]
  /\ exit_index stock holding_period last = last
  /\ Signal.Exit_Date sig = Signal.Entry_Date sig
  /\ Signal.Exit_Price sig = Signal.Entry_Price sig
  /\ forward_return_at stock holding_period last = zero
  /\ Signal.Forward_Return sig = "0.0%"%string
  /\ In (write [Lit "Total Signals: "; Of_int (Z.of_nat (List.length earlier) + 1)])
        (emitted run)
  /\ In (write [Lit "Average Forward Return: ";
                Lit (format_1f (np_sum (fillna values ++ [zero])
                                / of_int (Z.of_nat (count values) + 1))%float);
                Lit "%"])
        (emitted run)
  /\ ((List.length earlier < 7)%nat ->
      np_sum (fillna values ++ [zero]) = np_sum (fillna values)).
Proof.
  intros stock run last sig earlier values Hpr _ Hnd Hhp Hq.
  pose proof (qualifies_in_series _ _ _ _ _ Hq) as Hlt. fold last in Hlt.
  assert (exit_index stock holding_period last = last) as Hexit
      by (unfold exit_index, last in *; lia).
  assert (forward_return_at stock holding_period last = zero) as Hfr.
  { unfold forward_return_at. rewrite Hexit.
    apply no_move_no_return.
    destruct (bar_at stock last Hlt) as (b & Hb & _ & <-). now apply Hpr. }
  pose proof (qualifying_with_last stock start_date volume_threshold price_threshold Hq)
    as Hqs.
  fold last earlier in Hqs.
  assert (emitted run
          = summary start_date end_date volume_threshold price_threshold holding_period
              (map (signal_at stock holding_period) earlier ++ [sig])
              (mean (values ++ [zero]))) as Hpage.
  { unfold run. rewrite emitted_by_position by assumption. fold stock.
    rewrite Hqs. destruct (earlier ++ [last]) eqn:E.
    - destruct earlier; discriminate.
    - rewrite <- E, !map_app. cbn [map]. rewrite Hfr.
      reflexivity. }
  assert (mean (values ++ [zero])
          = (np_sum (fillna values ++ [zero])
             / of_int (Z.of_nat (count values) + 1))%float) as Hmean.
  { unfold mean. rewrite count_zero_last, fillna_zero_last.
    cbn [Nat.eqb]. f_equal. f_equal. lia. }
  repeat split.
  - unfold reported_signals. rewrite Hpage. apply tables_of_summary.
  - exact Hexit.
  - unfold sig, signal_at. cbn [Signal.Exit_Date Signal.Entry_Date]. now rewrite Hexit.
  - unfold sig, signal_at. cbn [Signal.Exit_Price Signal.Entry_Price]. now rewrite Hexit.
  - exact Hfr.
  - unfold sig, signal_at. cbn [Signal.Forward_Return]. rewrite Hfr. reflexivity.
  - rewrite Hpage. unfold summary. right. left.
    rewrite length_app, length_map. cbn [List.length].
    replace (Z.of_nat (List.length earlier + 1))
      with (Z.of_nat (List.length earlier) + 1) by lia.
    reflexivity.
  - rewrite Hpage, Hmean. unfold summary. right. right. left. reflexivity.
  - intros Hshort. apply np_sum_zero_last.
    unfold fillna, values. rewrite !length_map. exact Hshort.
Qed.

Lemma unique_dates_doubling : unique_dates (fetched (market doubling false) "T" 120 130).
Proof.
  unfold unique_dates. vm_compute.
  repeat (constructor; [simpl; intuition discriminate |]). constructor.
Qed.


(** In [doubling] the first event doubles within its day of holding and
    the second is the last bar: the rows show [100.0%] and [0.0%], two
    signals are counted and the mean shown is 50.0. *)
Lemma C10_last_bar_event_witness :
  let run := analyze_breakouts (market doubling false) "T" 120 130 2 0.02 1 in
  map Signal.Forward_Return (reported_signals run) = ["100.0%"; "0.0%"]%string
  /\ map Signal.Entry_Date (reported_signals run) = [120; 121]
  /\ map Signal.Exit_Date (reported_signals run) = [121; 121]
  /\ In (write [Lit "Total Signals: "; Of_int 2]) (emitted run)
  /\ In (write [Lit "Average Forward Return: "; Lit "50.0"; Lit "%"]) (emitted run).
Proof.
  intros run.
  pose proof (C10_last_bar_event (market doubling false) "T"%string 120 130 2 0.02 1
                (market_prices doubling false "T"%string 120 130 eq_refl)
                (market_volumes doubling false "T"%string 120 130 eq_refl)
                unique_dates_doubling ltac:(lia) eq_refl)
    as (Hrows & _ & _ & _ & _ & _ & Htotal & Hmean & _).
  fold run in Hrows, Htotal, Hmean.
  rewrite Hrows.
  split; [reflexivity |]. split; [reflexivity |]. split; [reflexivity |].
  split; [exact Htotal | exact Hmean].
Defined.

(** * Further properties on binary64 numbers *)

(** ** What a run shows and what it raises *)

Lemma signal_of_formats stock hp d sig :
  signal_of stock hp d = Ok sig ->
  exists x, Signal.Forward_Return sig = format_pct1 x.
Proof.
  unfold signal_of. intros H.
  repeat match type of H with
         | rbind ?r _ = Ok _ =>
             let E := fresh "E" in
             destruct r eqn:E; cbn [rbind] in H; [|discriminate]
         end.
  injection H as <-. eexists. reflexivity.
Qed.

Lemma for_each_total {A B} (body : A -> result B) (l : list A) :
  (forall a, In a l -> exists b, body a = Ok b) ->
  exists bs, for_each body l = Ok bs.
Proof.
  induction l as [|a l IH]; intros H; simpl.
  - eexists. reflexivity.
  - destruct (H a (or_introl eq_refl)) as (b & ->).
    destruct IH as (bs & ->); [intros a' Ha'; apply H; now right |].
    eexists. reflexivity.
Qed.

(** The mean of line 61 raises nothing on rows that the loop has made. *)
Lemma avg_return_of_rows stock hp dates df :
  for_each (signal_of stock hp) dates = Ok df -> df <> [] ->
  exists avg, avg_return_of df = Ok avg.
Proof.
  intros Hfor Hne. unfold avg_return_of.
  destruct df as [|r rs]; [congruence |].
  generalize dependent (r :: rs). intros df Hfor _.
  destruct (for_each_total
              (fun r => match parse_float (rstrip_pct (Signal.Forward_Return r)) with
                        | Some x => Ok x
                        | None => Raise ValueError
                        end) df) as (xs & ->).
  - intros row Hrow.
    destruct (for_each_In _ _ _ _ Hfor Hrow) as (d & _ & Hsig).
    destruct (signal_of_formats _ _ _ _ Hsig) as (x & ->).
    rewrite parse_format_pct1_back. eexists. reflexivity.
  - eexists. reflexivity.
Qed.

(** X1.  The page of a run is one of three: nothing, when the loop has
    raised; the message of line 57 alone; or the whole summary with a table
    that is not empty, and with the rows of the table offered for download.
    After the summary the run returns, unless the download button is
    pressed: then [st.experimental_rerun()] raises. *)
Theorem X1_page_all_or_nothing env ticker start_date end_date volume_threshold
    price_threshold holding_period :
  let run := analyze_breakouts env ticker start_date end_date volume_threshold
                               price_threshold holding_period in
  (emitted run = [] /\ exists e, outcome run = Raise e)
  \/ (emitted run = [no_signals ticker] /\ outcome run = Ok tt)
  \/ (exists df avg,
        df <> []
        /\ emitted run = summary start_date end_date volume_threshold price_threshold
                                 holding_period df avg
        /\ reported_signals run = df
        /\ outcome run = if download_pressed env
                         then Raise (rerun_exception env) else Ok tt).
Proof.
  intros run. unfold reported_signals, emitted, outcome, run.
  rewrite run_by_loop.
  destruct (for_each _ _) as [results|e] eqn:Hfor.
  - destruct results as [|r rs].
    + right. left. split; reflexivity.
    + destruct (avg_return_of_rows _ _ _ _ Hfor ltac:(discriminate)) as (avg & ->).
      right. right. exists (r :: rs), avg.
      cbn [fst snd page fresh app].
      split; [discriminate |]. split; [reflexivity |].
      split; [apply tables_of_summary | reflexivity].
  - left. split; [reflexivity | eexists; reflexivity].
Qed.

(** X2.  When a run raises, either the loop has raised, on a row lookup,
    and nothing is shown, or the summary is shown in full, the download
    button is pressed and the exception is the one of
    [st.experimental_rerun()]; re-reading the formatted forward returns and
    taking their mean never raises. *)
Theorem X2_what_a_run_raises env ticker start_date end_date volume_threshold
    price_threshold holding_period e :
  let stock := fetched env ticker start_date end_date in
  let run := analyze_breakouts env ticker start_date end_date volume_threshold
                               price_threshold holding_period in
  outcome run = Raise e ->
  (for_each (signal_of stock holding_period)
            (breakouts stock start_date volume_threshold price_threshold) = Raise e
   /\ emitted run = [])
  \/ (download_pressed env = true
      /\ e = rerun_exception env
      /\ reported_signals run <> []).
Proof.
  intros stock run. unfold reported_signals, emitted, outcome, run.
  rewrite run_by_loop. fold stock.
  destruct (for_each _ _) as [results|e'] eqn:Hfor.
  - destruct results as [|r rs]; [discriminate |].
    destruct (avg_return_of_rows _ _ _ _ Hfor ltac:(discriminate)) as (avg & ->).
    cbn [fst snd page fresh app]. rewrite tables_of_summary.
    destruct (download_pressed env); [|discriminate].
    intros [= <-]. right. split; [reflexivity |]. split; [reflexivity | discriminate].
  - cbn [fst snd]. intros [= <-]. left. split; reflexivity.
Qed.

Lemma X2_what_a_run_raises_witness :
  outcome (analyze_breakouts (market doubling true) "T" 120 130 2 0.02 1)
  = Raise RerunException
  /\ ((for_each (signal_of (fetched (market doubling true) "T" 120 130) 1)
                (breakouts (fetched (market doubling true) "T" 120 130) 120 2 0.02)
       = Raise RerunException
       /\ emitted (analyze_breakouts (market doubling true) "T" 120 130 2 0.02 1) = [])
      \/ (download_pressed (market doubling true) = true
          /\ RerunException = rerun_exception (market doubling true)
          /\ reported_signals (analyze_breakouts (market doubling true) "T" 120 130 2 0.02 1)
             <> [])).
Proof.
  split; [reflexivity |].
  apply (X2_what_a_run_raises (market doubling true) "T"%string 120 130 2 0.02 1
                              RerunException).
  reflexivity.
Defined.

(** A date that occurs twice.  Where the dates ascend, [get_loc] returns
    a slice and line 40 raises [TypeError]; where they do not, it returns a
    mask and line 40 raises [ValueError].  Nothing is shown.  Without the
    function [experimental_rerun], a press of the download button ends in
    [AttributeError], after the summary. *)
Example repeated_label_raises :
  outcome (analyze_breakouts (all_of twice false true) "T" 120 130 2 0.02 1)
  = Raise TypeError
  /\ emitted (analyze_breakouts (all_of twice false true) "T" 120 130 2 0.02 1) = []
  /\ outcome (analyze_breakouts (all_of shuffled false true) "T" 120 130 2 0.02 1)
     = Raise ValueError
  /\ emitted (analyze_breakouts (all_of shuffled false true) "T" 120 130 2 0.02 1) = []
  /\ outcome (analyze_breakouts (all_of doubling true false) "T" 120 130 2 0.02 1)
     = Raise AttributeError
  /\ List.length (emitted (analyze_breakouts (all_of doubling true false) "T" 120 130 2
                                             0.02 1)) = 9%nat.
Proof.
  repeat split; vm_compute; reflexivity.
Qed.

End OnBinary64.
